(** * goresily: circuit breaker, bulkhead and their composition

    A shallow embedding of the Go packages [circuitbreaker], [bulkhead]
    and of the guarded call path of [httpclient], followed by the
    theorems that relate the code to its written specification.

    Conventions.
    - Go's [int] and [time.Duration] are 64-bit integers, embedded in [Z];
      the one arithmetic operation of the code that can leave the range
      ([trialCount++]) has its wrap-around written out, and [Time.Sub]
      saturates as package [time] documents.
    - A [func() error] is a computation on the [World]: it may change
      everything a goroutine can reach while it runs, which covers what
      concurrent callers and the breaker's timer do between the two
      critical sections of [Execute].
    - A computation that never returns (a goroutine parked on a channel
      receive, an operation that hangs) yields [None]. *)

From Stdlib Require Import ZArith List String Bool Lia.
Import ListNotations.
Local Open Scope Z_scope.

(** ** Machine integers and package [time] *)

Definition wrap64 (z : Z) : Z := (z + 2 ^ 63) mod 2 ^ 64 - 2 ^ 63.
Arguments wrap64 : simpl never.

Module time.
(** An instant, in nanoseconds on the process clock. *)
Definition Time := Z.
(** A [time.Duration]: an int64 count of nanoseconds. *)
Definition Duration := Z.

Definition maxDuration : Duration := 2 ^ 63 - 1.
Definition minDuration : Duration := - 2 ^ 63.

(** [t.Add(d)] *)
Definition Add (t : Time) (d : Duration) : Time := t + d.

(** [t.Sub(u)]: the difference, saturated to the range of a Duration. *)
Definition Sub (t u : Time) : Duration :=
  if maxDuration <? t - u then maxDuration
  else if t - u <? minDuration then minDuration
  else t - u.

(** [t.After(u)] *)
Definition After (t u : Time) : bool := u <? t.
End time.
Arguments time.Sub : simpl never.

(** ** Errors

    Go's [error] interface: [None] is [nil]. The two sentinels of the
    repository, the error built by [fmt.Errorf("server error: %d", code)],
    and any other error value identified by its message. *)

Inductive Err : Type :=
| ErrOpen
| ErrFull
| ErrServer (code : Z)
| ErrOther (msg : string).

Definition error := option Err.

(** ** Data model *)

Inductive State : Type := Closed | Open | HalfOpen.

Definition State_eqb (a b : State) : bool :=
  match a, b with
  | Closed, Closed | Open, Open | HalfOpen, HalfOpen => true
  | _, _ => false
  end.

(** A registered [func(State)], known by its identity: what it does when
    called is outside the breaker, its calls are logged in the world. *)
Inductive Listener : Type := listener (id : nat).

Record CircuitBreaker : Type := mkCircuitBreaker {
  maxFailures   : Z;
  window        : time.Duration;
  timeout       : time.Duration;
  trialRequests : Z;
  trialDuration : time.Duration;
  failureTimes  : list time.Time;
  trialCount    : Z;
  trialStart    : time.Time;
  state         : State;
  onStateChange : option Listener
}.

(** [chan struct{}]: its capacity and the elements it buffers. *)
Record chan : Type := mkChan {
  cap : Z;
  buf : list unit
}.

(** A send that goes through puts one element at the back of the buffer. *)
Definition send (c : chan) : chan := mkChan (cap c) (buf c ++ [tt]).

Record Bulkhead : Type := mkBulkhead {
  sem : chan
}.

(** Everything the guarded call path reads or writes. *)
Record World : Type := mkWorld {
  breaker    : CircuitBreaker;        (* the object behind [c.CB] *)
  bulkhead   : Bulkhead;              (* the object behind [c.BH] *)
  clock      : time.Time;             (* what [time.Now()] returns *)
  timers     : list time.Time;        (* due times of pending [time.AfterFunc]s *)
  notified   : list (Listener * State); (* listener calls, oldest first *)
  statusCode : Z                      (* [resp.StatusCode()] of the call's response *)
}.

(** ** The monad of Go statements *)

Definition M (A : Type) : Type := World -> option (A * World).

Definition ret {A} (a : A) : M A := fun w => Some (a, w).

Definition bind {A B} (m : M A) (k : A -> M B) : M B :=
  fun w => match m w with
           | Some (a, w') => k a w'
           | None => None
           end.

Declare Scope go_scope.
Delimit Scope go_scope with go.
Notation "x <- m ;; k" := (bind m (fun x => k))
  (at level 100, m at next level, right associativity) : go_scope.
Notation "m ;; k" := (bind m (fun _ => k))
  (at level 100, right associativity) : go_scope.
Local Open Scope go_scope.

Definition gets {A} (f : World -> A) : M A := fun w => Some (f w, w).
Definition modify (f : World -> World) : M unit := fun w => Some (tt, f w).

(** [time.Now()] *)
Definition Now : M time.Time := gets clock.

(** Field updates. *)

Definition with_breaker (f : CircuitBreaker -> CircuitBreaker) (w : World) : World :=
  mkWorld (f (breaker w)) (bulkhead w) (clock w) (timers w) (notified w)
          (statusCode w).

Definition with_bulkhead (f : Bulkhead -> Bulkhead) (w : World) : World :=
  mkWorld (breaker w) (f (bulkhead w)) (clock w) (timers w) (notified w)
          (statusCode w).

Definition with_timers (f : list time.Time -> list time.Time) (w : World) : World :=
  mkWorld (breaker w) (bulkhead w) (clock w) (f (timers w)) (notified w)
          (statusCode w).

Definition with_notified (f : list (Listener * State) -> list (Listener * State))
    (w : World) : World :=
  mkWorld (breaker w) (bulkhead w) (clock w) (timers w) (f (notified w))
          (statusCode w).

Definition set_failureTimes (l : list time.Time) (c : CircuitBreaker) : CircuitBreaker :=
  mkCircuitBreaker (maxFailures c) (window c) (timeout c) (trialRequests c)
    (trialDuration c) l (trialCount c) (trialStart c) (state c) (onStateChange c).

Definition set_trialCount (n : Z) (c : CircuitBreaker) : CircuitBreaker :=
  mkCircuitBreaker (maxFailures c) (window c) (timeout c) (trialRequests c)
    (trialDuration c) (failureTimes c) n (trialStart c) (state c) (onStateChange c).

Definition set_trialStart (t : time.Time) (c : CircuitBreaker) : CircuitBreaker :=
  mkCircuitBreaker (maxFailures c) (window c) (timeout c) (trialRequests c)
    (trialDuration c) (failureTimes c) (trialCount c) t (state c) (onStateChange c).

Definition set_state (s : State) (c : CircuitBreaker) : CircuitBreaker :=
  mkCircuitBreaker (maxFailures c) (window c) (timeout c) (trialRequests c)
    (trialDuration c) (failureTimes c) (trialCount c) (trialStart c) s (onStateChange c).

(** ** Package circuitbreaker *)

Module circuitbreaker.

Definition String (s : State) : string :=
  match s with
  | Closed => "Closed"
  | Open => "Open"
  | HalfOpen => "HalfOpen"
  end%string.

Record Builder : Type := mkBuilder {
  b_maxFailures   : Z;
  b_window        : time.Duration;
  b_timeout       : time.Duration;
  b_trialRequests : Z;
  b_trialDuration : time.Duration;
  b_onStateChange : option Listener
}.

Definition Second : time.Duration := 1000000000.

Definition NewBuilder : Builder := mkBuilder 3 0 Second 0 0 None.

Definition MaxFailures (n : Z) (b : Builder) : Builder :=
  mkBuilder n (b_window b) (b_timeout b) (b_trialRequests b) (b_trialDuration b)
            (b_onStateChange b).
Definition Timeout (d : time.Duration) (b : Builder) : Builder :=
  mkBuilder (b_maxFailures b) (b_window b) d (b_trialRequests b) (b_trialDuration b)
            (b_onStateChange b).
Definition Window (d : time.Duration) (b : Builder) : Builder :=
  mkBuilder (b_maxFailures b) d (b_timeout b) (b_trialRequests b) (b_trialDuration b)
            (b_onStateChange b).
Definition TrialRequests (n : Z) (b : Builder) : Builder :=
  mkBuilder (b_maxFailures b) (b_window b) (b_timeout b) n (b_trialDuration b)
            (b_onStateChange b).
Definition TrialDuration (d : time.Duration) (b : Builder) : Builder :=
  mkBuilder (b_maxFailures b) (b_window b) (b_timeout b) (b_trialRequests b) d
            (b_onStateChange b).
Definition OnStateChange (fn : Listener) (b : Builder) : Builder :=
  mkBuilder (b_maxFailures b) (b_window b) (b_timeout b) (b_trialRequests b)
            (b_trialDuration b) (Some fn).

(** The zero [time.Time] is taken as instant 0. *)
Definition Build (b : Builder) : CircuitBreaker :=
  mkCircuitBreaker (b_maxFailures b) (b_window b) (b_timeout b) (b_trialRequests b)
    (b_trialDuration b) [] 0 0 Closed (b_onStateChange b).

Definition setState (s : State) : M unit :=
  c <- gets breaker ;;
  if negb (State_eqb (state c) s) then
    modify (with_breaker (set_state s)) ;;
    match onStateChange c with
    | Some f => modify (with_notified (fun l => l ++ [(f, s)]))
    | None => ret tt
    end
  else ret tt.

(** The loop of [recordFailure]:
    [for ; i < len(ts); i++ { if ts[i].After(cutoff) { break } }],
    run on the elements from index [i] on; the result is the final [i]. *)
Fixpoint scan (cutoff : time.Time) (rest : list time.Time) (i : nat) : nat :=
  match rest with
  | [] => i
  | t :: rest' => if time.After t cutoff then i else scan cutoff rest' (S i)
  end.

Definition recordFailure : M unit :=
  now <- Now ;;
  modify (with_breaker (fun c => set_failureTimes (failureTimes c ++ [now]) c)) ;;
  c <- gets breaker ;;
  if 0 <? window c then
    let cutoff := time.Add now (- window c) in
    let i := scan cutoff (failureTimes c) 0 in
    if (0 <? i)%nat then
      modify (with_breaker (set_failureTimes (skipn i (failureTimes c))))
    else ret tt
  else ret tt.

Definition resetFailures : M unit :=
  modify (with_breaker (set_failureTimes [])) ;;
  modify (with_breaker (set_trialCount 0)).

(** The function handed to [time.AfterFunc] by [startOpenTimer]. *)
Definition openTimerFired : M unit :=
  setState HalfOpen ;;
  now <- Now ;;
  modify (with_breaker (set_trialStart now)) ;;
  modify (with_breaker (set_trialCount 0)).

Definition startOpenTimer : M unit :=
  c <- gets breaker ;;
  now <- Now ;;
  modify (with_timers (fun l => l ++ [time.Add now (timeout c)])).

(** [time.Since(t)] *)
Definition Since (t : time.Time) : M time.Duration :=
  now <- Now ;; ret (time.Sub now t).

(** [Execute]. The snapshot [st] is taken in the first critical section
    and the [switch] after [fn] returns is on that snapshot. *)
Definition Execute (fn : M error) : M error :=
  c <- gets breaker ;;
  let st := state c in
  elapsed <- Since (trialStart c) ;;
  if State_eqb st HalfOpen && (0 <? trialDuration c) && (trialDuration c <? elapsed) then
    setState Open ;;
    startOpenTimer ;;
    ret (Some ErrOpen)
  else if State_eqb st Open then ret (Some ErrOpen)
  else
    err <- fn ;;
    match st with
    | Closed =>
        match err with
        | Some _ =>
            recordFailure ;;
            c1 <- gets breaker ;;
            if maxFailures c1 <=? Z.of_nat (List.length (failureTimes c1)) then
              resetFailures ;;
              setState Open ;;
              startOpenTimer ;;
              ret err
            else ret err
        | None => resetFailures ;; ret None
        end
    | HalfOpen =>
        modify (with_breaker (fun c1 => set_trialCount (wrap64 (trialCount c1 + 1)) c1)) ;;
        match err with
        | Some _ =>
            setState Open ;;
            startOpenTimer ;;
            ret err
        | None =>
            c1 <- gets breaker ;;
            if (trialRequests c1 =? 0) || (trialRequests c1 <=? trialCount c1) then
              setState Closed ;;
              resetFailures ;;
              ret err
            else ret err
        end
    | Open => ret err
    end.

End circuitbreaker.

(** ** Package bulkhead *)

Module bulkhead.

Record Builder : Type := mkBuilder { limit : Z }.

Definition NewBuilder : Builder := mkBuilder 1.

Definition Limit (n : Z) (b : Builder) : Builder := mkBuilder n.

(** [make(chan struct{}, n)] panics for a negative [n]. *)
Definition Build (b : Builder) : option Bulkhead :=
  if limit b <? 0 then None else Some (mkBulkhead (mkChan (limit b) [])).

(** The send case of a [select] with a [default]: it is taken when the
    buffer has room. No goroutine is ever parked receiving on [sem]
    (the only receive is the deferred one, which follows a send that
    went through), so a send into a full or unbuffered channel is never
    taken. The result tells whether the send happened. *)
Definition trySend : M bool :=
  b <- gets bulkhead ;;
  if Z.of_nat (List.length (buf (sem b))) <? cap (sem b) then
    modify (with_bulkhead (fun b => mkBulkhead (mkChan (cap (sem b)) (buf (sem b) ++ [tt])))) ;;
    ret true
  else ret false.

(** [<-bh.sem]: takes the oldest buffered element; parks for ever on an
    empty buffer (there is no other sender waiting). *)
Definition recv : M unit := fun w =>
  match buf (sem (bulkhead w)) with
  | [] => None
  | _ :: rest =>
      Some (tt, with_bulkhead (fun b => mkBulkhead (mkChan (cap (sem b)) rest)) w)
  end.

Definition Execute (fn : M error) : M error :=
  sent <- trySend ;;
  if sent then
    r <- fn ;;
    recv ;;          (* deferred *)
    ret r
  else ret (Some ErrFull).

End bulkhead.

(** ** Package httpclient: the guarded call path *)

Module httpclient.

(** [CB c] (resp. [BH c]) tells that the pointer [c.CB] (resp. [c.BH])
    is not nil; it then points to the world's breaker (resp. bulkhead). *)
Record Client : Type := mkClient { CB : bool; BH : bool }.

Definition StatusInternalServerError : Z := 500.

Definition execute (c : Client) (fn : M error) : M error :=
  if CB c && BH c then
    circuitbreaker.Execute (bulkhead.Execute fn)
  else if CB c then circuitbreaker.Execute fn
  else if BH c then bulkhead.Execute fn
  else fn.

Section CallAdapter.
(** The transport, [c.HTTP.Do] and [c.HTTP.DoDeadline]: it reports an
    error or fills in the response, whose status it leaves in the
    world. [deadline] is what [ctx.Deadline()] returns. *)
Variable Do : M error.
Variable DoDeadline : time.Time -> M error.
Variable deadline : option time.Time.

Definition callFn : M error :=
  err <- match deadline with
         | Some d => DoDeadline d
         | None => Do
         end ;;
  match err with
  | Some e => ret (Some e)
  | None =>
      code <- gets statusCode ;;
      if StatusInternalServerError <=? code
      then ret (Some (ErrServer code))
      else ret None
  end.
End CallAdapter.

(** *** Building a client from its configuration *)

Record HTTPClientConfig : Type := mkHTTPClientConfig {
  HTTPTimeout : time.Duration         (* [Timeout] of the transport *)
}.

Record BreakerConfig : Type := mkBreakerConfig {
  MaxFailures   : Z;
  Window        : time.Duration;
  Timeout       : time.Duration;
  TrialRequests : Z;
  TrialDuration : time.Duration;
  OnStateChange : option Listener
}.

Record BulkheadConfig : Type := mkBulkheadConfig {
  Limit : Z
}.

(** What [New] hands back: the client and the objects its two pointers
    point to ([None] for a nil pointer). The transport it also builds is
    the parameter of the call adapter. *)
Record Built : Type := mkBuilt {
  client      : Client;
  breaker_of  : option CircuitBreaker;
  bulkhead_of : option Bulkhead
}.

(** The three optional parts of a [Config]; [None] is a nil pointer. *)
Record Config : Type := mkConfig {
  HTTP       : option HTTPClientConfig;
  Breaker    : option BreakerConfig;
  Bulkhead_  : option BulkheadConfig
}.

Definition buildBreaker (cfg : option BreakerConfig) : option CircuitBreaker :=
  match cfg with
  | None => None
  | Some cfg =>
      let b := circuitbreaker.NewBuilder in
      let b := if 0 <? MaxFailures cfg
               then circuitbreaker.MaxFailures (MaxFailures cfg) b else b in
      let b := if 0 <? Window cfg
               then circuitbreaker.Window (Window cfg) b else b in
      let b := if 0 <? Timeout cfg
               then circuitbreaker.Timeout (Timeout cfg) b else b in
      let b := if 0 <? TrialRequests cfg
               then circuitbreaker.TrialRequests (TrialRequests cfg) b else b in
      let b := if 0 <? TrialDuration cfg
               then circuitbreaker.TrialDuration (TrialDuration cfg) b else b in
      let b := match OnStateChange cfg with
               | Some f => circuitbreaker.OnStateChange f b
               | None => b
               end in
      Some (circuitbreaker.Build b)
  end.

(** The outer [None] is the panic of [make]; the inner one a nil pointer. *)
Definition buildBulkhead (cfg : option BulkheadConfig) : option (option Bulkhead) :=
  match cfg with
  | None => Some None
  | Some cfg =>
      let b := bulkhead.NewBuilder in
      let b := if 0 <? Limit cfg then bulkhead.Limit (Limit cfg) b else b in
      match bulkhead.Build b with
      | Some bh => Some (Some bh)
      | None => None
      end
  end.

Definition non_nil {A} (p : option A) : bool :=
  match p with Some _ => true | None => false end.

Definition New (cfg : option Config) : option Built :=
  match cfg with
  | None => Some (mkBuilt (mkClient false false) None None)
  | Some cfg =>
      let cb := buildBreaker (Breaker cfg) in
      match buildBulkhead (Bulkhead_ cfg) with
      | Some bh => Some (mkBuilt (mkClient (non_nil cb) (non_nil bh)) cb bh)
      | None => None
      end
  end.

Definition NewWithBreaker (httpCfg : option HTTPClientConfig)
    (cbCfg : option BreakerConfig) : option Built :=
  New (Some (mkConfig httpCfg cbCfg None)).

Definition NewWithBulkhead (httpCfg : option HTTPClientConfig)
    (bhCfg : option BulkheadConfig) : option Built :=
  New (Some (mkConfig httpCfg None bhCfg)).

Definition NewWithBreakerAndBulkhead (httpCfg : option HTTPClientConfig)
    (cbCfg : option BreakerConfig) (bhCfg : option BulkheadConfig) : option Built :=
  New (Some (mkConfig httpCfg cbCfg bhCfg)).

Definition NewPlain (httpCfg : option HTTPClientConfig) : option Built :=
  New (Some (mkConfig httpCfg None None)).

(** The world a new client starts in: the objects [New] built are put
    behind the two pointers; where a pointer is nil the object of [w] is
    left, and [execute] never reaches it. *)
Definition install (b : Built) (w : World) : World :=
  mkWorld (match breaker_of b with Some cb => cb | None => breaker w end)
          (match bulkhead_of b with Some bh => bh | None => bulkhead w end)
          (clock w) (timers w) (notified w) (statusCode w).

(** *** [Call] *)

Definition with_statusCode (code : Z) (w : World) : World :=
  mkWorld (breaker w) (bulkhead w) (clock w) (timers w) (notified w) code.

Section Call.
(** [parsed] is the error of [url.Parse(req.URL())] and [read] the error
    of [io.ReadAll(req.Body())], both decided by the request alone. A
    response is known by its status code ([None] is the nil response);
    its body and headers are copied from the same [resp] and decide
    nothing. The zero [Response] of the repository's fasthttp package has
    status 0. *)
Variable parsed : error.
Variable read : error.
Variable Do : M error.
Variable DoDeadline : time.Time -> M error.
Variable deadline : option time.Time.

Definition Call (c : Client) : M (option Z * error) :=
  match parsed with
  | Some e => ret (None, Some e)
  | None =>
      match read with
      | Some e => ret (None, Some e)
      | None =>
          modify (with_statusCode 0) ;;      (* [var resp fasthttp.Response] *)
          err <- execute c (callFn Do DoDeadline deadline) ;;
          code <- gets statusCode ;;
          ret (Some code, err)
      end
  end.
End Call.

End httpclient.


(** ** Reading the failure record

    [drop_expired cutoff l] removes the leading timestamps of [l] that are
    not after [cutoff]: the slice [ts[i:]] that [recordFailure] keeps. *)

Fixpoint drop_expired (cutoff : time.Time) (l : list time.Time) : list time.Time :=
  match l with
  | [] => []
  | t :: rest => if cutoff <? t then l else drop_expired cutoff rest
  end.

(** The failure record that [recordFailure] leaves at instant [now]. *)
Definition recorded (now : time.Time) (c : CircuitBreaker) : list time.Time :=
  if 0 <? window c
  then drop_expired (now - window c) (failureTimes c ++ [now])
  else failureTimes c ++ [now].

(** The failure record as the specification words it: the new timestamp is
    appended, and with a positive window the timestamps older than
    [now - window] go, one exactly at [now - window] stays. *)
Definition recorded_as_specified (now : time.Time) (c : CircuitBreaker)
  : list time.Time :=
  if 0 <? window c
  then filter (fun t => now - window c <=? t) (failureTimes c ++ [now])
  else failureTimes c ++ [now].

(** The first critical section of the breaker's [Execute] turns the call
    away: the breaker is open, or half-open with its trial time used up. *)
Definition fast_fails (w : World) : Prop :=
  state (breaker w) = Open \/
  (state (breaker w) = HalfOpen /\
   0 < trialDuration (breaker w) /\
   trialDuration (breaker w) < time.Sub (clock w) (trialStart (breaker w))).

(** A half-open breaker whose trial time is unlimited or not yet used up. *)
Definition within_trial (w : World) : Prop :=
  state (breaker w) = HalfOpen /\
  (trialDuration (breaker w) <= 0 \/
   time.Sub (clock w) (trialStart (breaker w)) <= trialDuration (breaker w)).

(** What one listener call adds to the log when the state becomes [s]. *)
Definition notification (c : CircuitBreaker) (s : State) : list (Listener * State) :=
  match onStateChange c with
  | Some f => if State_eqb (state c) s then [] else [(f, s)]
  | None => []
  end.

(** The number of slots of the bulkhead that are taken. *)
Definition inFlight (w : World) : Z :=
  Z.of_nat (List.length (buf (sem (bulkhead w)))).

(** The bulkhead has no slot left. *)
Definition full (w : World) : Prop := cap (sem (bulkhead w)) <= inFlight w.

(** The world in which a slot of the bulkhead has just been claimed. *)
Definition claimed (w : World) : World :=
  with_bulkhead (fun b => mkBulkhead (send (sem b))) w.

(** ** Runs of several calls *)

(** The call is let through to the operation. *)
Definition admitted (w : World) : Prop :=
  state (breaker w) = Closed \/ within_trial w.

(** The settings of a breaker, which no call changes. *)
Definition same_settings (c c' : CircuitBreaker) : Prop :=
  maxFailures c = maxFailures c' /\
  window c = window c' /\
  timeout c = timeout c' /\
  trialRequests c = trialRequests c' /\
  trialDuration c = trialDuration c' /\
  onStateChange c = onStateChange c'.

(** The failure record is shorter than the threshold. *)
Definition below_threshold (w : World) : Prop :=
  Z.of_nat (List.length (failureTimes (breaker w))) < maxFailures (breaker w).

(** An operation that always fails, resp. always succeeds, and does not
    touch the breaker. *)
Definition always_fails (fn : M error) : Prop :=
  forall w, exists e w1, fn w = Some (Some e, w1) /\ breaker w1 = breaker w.

Definition always_succeeds (fn : M error) : Prop :=
  forall w, exists w1, fn w = Some (None, w1) /\ breaker w1 = breaker w.

(** [n] calls through the breaker, one after the other. *)
Fixpoint calls (n : nat) (fn : M error) : M (list error) :=
  match n with
  | O => ret []
  | S k =>
      r <- circuitbreaker.Execute fn ;;
      rs <- calls k fn ;;
      ret (r :: rs)
  end.

(** [n] calls through the bulkhead, each made from inside the one before:
    [n] operations in flight at once. *)
Fixpoint nested (n : nat) (fn : M error) : M error :=
  match n with
  | O => fn
  | S k => bulkhead.Execute (nested k fn)
  end.

(** The world with [n] more slots claimed. *)
Fixpoint claimed_n (n : nat) (w : World) : World :=
  match n with
  | O => w
  | S k => claimed_n k (claimed w)
  end.

(** A failure record in time order, none of it later than [now]. *)
Fixpoint in_order (now : time.Time) (l : list time.Time) : Prop :=
  match l with
  | [] => True
  | t :: rest => t <= now /\ Forall (fun u => t <= u) rest /\ in_order now rest
  end.

(** Sample values used by the worked examples. *)
Definition boom : Err := ErrOther "boom".
Definition failing : M error := ret (Some boom).
Definition succeeding : M error := ret None.
Definition idle_bulkhead : Bulkhead := mkBulkhead (mkChan 1 []).


(** * Properties *)

(** ** Tools *)

Lemma State_eqb_refl (s : State) : State_eqb s s = true.
Proof. destruct s; reflexivity. Qed.

Lemma State_eqb_eq (a b : State) : State_eqb a b = true <-> a = b.
Proof. destruct a, b; simpl; split; congruence. Qed.

Lemma State_eqb_neq (a b : State) : State_eqb a b = false <-> a <> b.
Proof. destruct a, b; simpl; split; congruence. Qed.

Lemma wrap64_small (z : Z) : - 2 ^ 63 <= z < 2 ^ 63 -> wrap64 z = z.
Proof.
  intros H. unfold wrap64.
  rewrite Z.mod_small by lia. lia.
Qed.

(** Unfolding of the monadic code down to the fields of the world. *)
Ltac run :=
  cbv [circuitbreaker.Execute circuitbreaker.setState circuitbreaker.startOpenTimer
       circuitbreaker.resetFailures circuitbreaker.Since circuitbreaker.openTimerFired
       bulkhead.Execute bulkhead.trySend bulkhead.recv send
       bind ret gets modify Now
       with_breaker with_bulkhead with_timers with_notified
       set_failureTimes set_trialCount set_trialStart set_state];
  cbn [breaker bulkhead clock timers notified statusCode
       maxFailures window timeout trialRequests trialDuration failureTimes
       trialCount trialStart state onStateChange sem cap buf
       negb andb orb fst snd State_eqb].

(** The index the loop stops at, counted from where it started. *)
Lemma scan_shift (cutoff : time.Time) (l : list time.Time) (i : nat) :
  circuitbreaker.scan cutoff l i = (i + circuitbreaker.scan cutoff l 0)%nat.
Proof.
  revert i. induction l as [|t l IH]; intros i; simpl.
  - lia.
  - destruct (time.After t cutoff); [lia|].
    rewrite (IH (S i)), (IH 1%nat). lia.
Qed.

Lemma skipn_scan (cutoff : time.Time) (l : list time.Time) :
  skipn (circuitbreaker.scan cutoff l 0) l = drop_expired cutoff l.
Proof.
  induction l as [|t l IH]; simpl; [reflexivity|].
  unfold time.After. destruct (cutoff <? t); [reflexivity|].
  rewrite scan_shift. simpl. exact IH.
Qed.

Lemma scan_zero (cutoff : time.Time) (l : list time.Time) :
  circuitbreaker.scan cutoff l 0 = 0%nat -> drop_expired cutoff l = l.
Proof.
  intros H. rewrite <- skipn_scan, H. reflexivity.
Qed.

(** [recordFailure] always returns, and leaves the record [recorded]. *)
Lemma recordFailure_run (w : World) :
  circuitbreaker.recordFailure w =
  Some (tt, with_breaker (set_failureTimes (recorded (clock w) (breaker w))) w).
Proof.
  unfold circuitbreaker.recordFailure, recorded, time.Add. run.
  destruct (0 <? window (breaker w)); [|reflexivity].
  replace (clock w + - window (breaker w)) with (clock w - window (breaker w)) by lia.
  set (l := failureTimes (breaker w) ++ [clock w]).
  set (cutoff := clock w - window (breaker w)).
  destruct (circuitbreaker.scan cutoff l 0) as [|i] eqn:E.
  - simpl. rewrite (scan_zero _ _ E). reflexivity.
  - rewrite <- skipn_scan, E. reflexivity.
Qed.

(** The timestamp just appended always survives the pruning. *)
Lemma drop_expired_app_last (cutoff now : time.Time) (l : list time.Time) :
  cutoff < now -> exists l', drop_expired cutoff (l ++ [now]) = l' ++ [now].
Proof.
  intros H. induction l as [|t l IH]; simpl.
  - apply Z.ltb_lt in H. rewrite H. exists []. reflexivity.
  - destruct (cutoff <? t).
    + exists (t :: l). reflexivity.
    + exact IH.
Qed.

Lemma recorded_last (now : time.Time) (c : CircuitBreaker) :
  exists l', recorded now c = l' ++ [now].
Proof.
  unfold recorded. destruct (0 <? window c) eqn:E.
  - apply drop_expired_app_last. apply Z.ltb_lt in E. lia.
  - eauto.
Qed.

(** On a record in time order, pruning keeps exactly the timestamps after
    the cutoff. *)
Lemma drop_expired_sorted (cutoff : time.Time) (l : list time.Time) :
  (forall i j a b, nth_error l i = Some a -> nth_error l j = Some b ->
                   (i <= j)%nat -> a <= b) ->
  drop_expired cutoff l = filter (fun t => cutoff <? t) l.
Proof.
  induction l as [|t l IH]; intros Hs; simpl; [reflexivity|].
  destruct (cutoff <? t) eqn:E.
  - f_equal. symmetry. apply forallb_filter_id. apply forallb_forall.
    intros x Hx. apply In_nth_error in Hx. destruct Hx as [j Hj].
    apply Z.ltb_lt in E. apply Z.ltb_lt.
    specialize (Hs 0%nat (S j) t x eq_refl Hj). lia.
  - apply IH. intros i j a b Ha Hb Hij.
    apply (Hs (S i) (S j) a b Ha Hb). lia.
Qed.

Lemma setState_run (s : State) (w : World) :
  circuitbreaker.setState s w =
  Some (tt, if State_eqb (state (breaker w)) s then w
            else match onStateChange (breaker w) with
                 | Some f => with_notified (fun l => l ++ [(f, s)])
                               (with_breaker (set_state s) w)
                 | None => with_breaker (set_state s) w
                 end).
Proof.
  run. destruct (State_eqb (state (breaker w)) s); simpl; [reflexivity|].
  destruct (onStateChange (breaker w)); reflexivity.
Qed.

(** ** The listener *)

(** C9. With a listener [f] registered, [setState s] on a breaker in
    another state sets the state to [s] and calls [f] exactly once, with
    [s]: the log of listener calls grows by the single entry [(f, s)] and
    nothing else changes. On a breaker already in state [s] it changes
    nothing and the listener is not called. *)
Theorem setState_notifies_once (f : Listener) (s : State) (w : World) :
  onStateChange (breaker w) = Some f ->
  (state (breaker w) <> s ->
   exists w',
     circuitbreaker.setState s w = Some (tt, w') /\
     state (breaker w') = s /\
     notified w' = notified w ++ [(f, s)] /\
     w' = with_notified (fun l => l ++ [(f, s)]) (with_breaker (set_state s) w)) /\
  (state (breaker w) = s ->
   circuitbreaker.setState s w = Some (tt, w)).
Proof.
  intros Hf. rewrite setState_run, Hf. split; intros Hs.
  - apply State_eqb_neq in Hs. rewrite Hs. eexists. repeat split.
  - apply State_eqb_eq in Hs. rewrite Hs. reflexivity.
Qed.

Lemma setState_notifies_once_witness :
  let w := mkWorld (mkCircuitBreaker 3 0 1000 0 0 [] 0 0 Closed (Some (listener 7)))
                   idle_bulkhead 5 [] [] 0 in
  circuitbreaker.setState Open w =
    Some (tt, with_notified (fun l => l ++ [(listener 7, Open)])
                (with_breaker (set_state Open) w)) /\
  circuitbreaker.setState Closed w = Some (tt, w).
Proof.
  intros w.
  destruct (setState_notifies_once (listener 7) Open w eq_refl) as [Hchg _].
  destruct (setState_notifies_once (listener 7) Closed w eq_refl) as [_ Hsame].
  split.
  - destruct Hchg as [w' [Hrun [_ [_ Hw']]]]; [discriminate|].
    rewrite Hrun, Hw'. reflexivity.
  - apply Hsame. reflexivity.
Defined.

(** ** The breaker's fast-fail paths *)

Lemma Execute_open_run (fn : M error) (w : World) :
  state (breaker w) = Open ->
  circuitbreaker.Execute fn w = Some (Some ErrOpen, w).
Proof.
  intros Hs. run. rewrite Hs. reflexivity.
Qed.

(** C2. On an open breaker [Execute] returns [ErrOpen] and the world is
    left as it was: no field of the breaker changes, no failure is
    recorded, and the operation is not run, whatever it is (even one that
    would never return). *)
Theorem Execute_open_rejects (fn : M error) (w : World) :
  state (breaker w) = Open ->
  circuitbreaker.Execute fn w = Some (Some ErrOpen, w).
Proof.
  exact (Execute_open_run fn w).
Qed.

Lemma Execute_open_rejects_witness :
  let w := mkWorld (mkCircuitBreaker 3 0 1000 0 0 [4] 0 0 Open None)
                   idle_bulkhead 5 [1004] [] 0 in
  circuitbreaker.Execute (fun _ => None) w = Some (Some ErrOpen, w).
Proof.
  intros w. apply (Execute_open_rejects (fun _ => None) w). reflexivity.
Defined.

(** The elapsed time as [time.Since] reports it is the true difference of
    the two instants whenever that fits a Duration. *)
Lemma Sub_exact (t u : time.Time) :
  time.minDuration <= t - u <= time.maxDuration -> time.Sub t u = t - u.
Proof.
  intros H. unfold time.Sub.
  destruct (Z.ltb_spec time.maxDuration (t - u)); [lia|].
  destruct (Z.ltb_spec (t - u) time.minDuration); [lia|reflexivity].
Qed.

(** The expired-trial path, shared by the statements below. *)
Lemma Execute_trial_expired_run (fn : M error) (w : World) :
  state (breaker w) = HalfOpen ->
  0 < trialDuration (breaker w) ->
  trialDuration (breaker w) < time.Sub (clock w) (trialStart (breaker w)) ->
  exists w',
    circuitbreaker.Execute fn w = Some (Some ErrOpen, w') /\
    breaker w' = set_state Open (breaker w) /\
    timers w' = timers w ++ [time.Add (clock w) (timeout (breaker w))] /\
    notified w' = notified w ++ notification (breaker w) Open /\
    bulkhead w' = bulkhead w /\
    clock w' = clock w /\
    statusCode w' = statusCode w.
Proof.
  intros Hs Hd He.
  apply Z.ltb_lt in Hd. apply Z.ltb_lt in He.
  unfold notification. run. rewrite Hs, Hd, He. run. rewrite Hs. run.
  destruct (onStateChange (breaker w)); run; eexists; repeat split.
  run. rewrite app_nil_r. reflexivity.
Qed.

(** C3. On a half-open breaker with a positive [trialDuration], once
    [time.Since(trialStart)] exceeds [trialDuration], [Execute] sets the
    state to [Open] (telling the listener, if any), starts a new open
    timer due [timeout] from now, and returns [ErrOpen]; the operation is
    not run, whatever it is, and the rest of the breaker is untouched. *)
Theorem Execute_trial_expired (fn : M error) (w : World) :
  state (breaker w) = HalfOpen ->
  0 < trialDuration (breaker w) ->
  trialDuration (breaker w) < time.Sub (clock w) (trialStart (breaker w)) ->
  exists w',
    circuitbreaker.Execute fn w = Some (Some ErrOpen, w') /\
    circuitbreaker.Execute (fun _ => None) w = Some (Some ErrOpen, w') /\
    state (breaker w') = Open /\
    breaker w' = set_state Open (breaker w) /\
    timers w' = timers w ++ [time.Add (clock w) (timeout (breaker w))] /\
    notified w' = notified w ++ notification (breaker w) Open /\
    bulkhead w' = bulkhead w.
Proof.
  intros Hs Hd He.
  destruct (Execute_trial_expired_run fn w Hs Hd He)
    as [w' [Hrun [Hb [Ht [Hn [Hbh _]]]]]].
  destruct (Execute_trial_expired_run (fun _ => None) w Hs Hd He)
    as [w'' [Hrun' _]].
  assert (w'' = w') as ->.
  { revert Hrun Hrun'. run.
    apply Z.ltb_lt in Hd. apply Z.ltb_lt in He. rewrite Hs, Hd, He. run.
    congruence. }
  exists w'. repeat split; try assumption.
  rewrite Hb. reflexivity.
Qed.

Lemma Execute_trial_expired_witness :
  let w := mkWorld (mkCircuitBreaker 2 10 1000 3 50 [] 0 100 HalfOpen (Some (listener 1)))
                   idle_bulkhead 151 [] [] 0 in
  exists w',
    circuitbreaker.Execute failing w = Some (Some ErrOpen, w') /\
    state (breaker w') = Open /\
    timers w' = [1151] /\
    notified w' = [(listener 1, Open)].
Proof.
  intros w.
  destruct (Execute_trial_expired failing w) as [w' [Hrun [_ [Hs [_ [Ht [Hn _]]]]]]].
  - reflexivity.
  - simpl. lia.
  - vm_compute. reflexivity.
  - exists w'. repeat split; assumption.
Defined.

(** ** Failures of a closed breaker *)

(** What pruning removes: a prefix of timestamps none of which is after
    the cutoff, ending just before the first timestamp that is. *)
Lemma drop_expired_split (cutoff : time.Time) (l : list time.Time) :
  exists dropped,
    l = dropped ++ drop_expired cutoff l /\
    Forall (fun t => t <= cutoff) dropped /\
    match drop_expired cutoff l with
    | [] => True
    | t :: _ => cutoff < t
    end.
Proof.
  induction l as [|t l IH]; simpl.
  - exists []. repeat split. constructor.
  - destruct (Z.ltb_spec cutoff t) as [Hlt|Hge].
    + exists []. repeat split; [constructor|assumption].
    + destruct IH as [d [Hl [Hd Hh]]].
      exists (t :: d). repeat split.
      * simpl. f_equal. exact Hl.
      * constructor; assumption.
      * exact Hh.
Qed.

(** The second critical section after a failure, for a call admitted on a
    closed breaker. *)
Lemma Execute_closed_failure_run (fn : M error) (w w1 : World) (e : Err) :
  state (breaker w) = Closed ->
  fn w = Some (Some e, w1) ->
  exists w2,
    circuitbreaker.Execute fn w = Some (Some e, w2) /\
    bulkhead w2 = bulkhead w1 /\
    clock w2 = clock w1 /\
    statusCode w2 = statusCode w1 /\
    if maxFailures (breaker w1) <=?
       Z.of_nat (List.length (recorded (clock w1) (breaker w1)))
    then
      failureTimes (breaker w2) = [] /\
      trialCount (breaker w2) = 0 /\
      state (breaker w2) = Open /\
      timers w2 = timers w1 ++ [time.Add (clock w1) (timeout (breaker w1))] /\
      notified w2 = notified w1 ++ notification (breaker w1) Open
    else
      w2 = with_breaker (set_failureTimes (recorded (clock w1) (breaker w1))) w1.
Proof.
  intros Hs Hfn. unfold notification.
  run. rewrite Hs. run. rewrite Hfn. run.
  rewrite recordFailure_run. run.
  destruct (maxFailures (breaker w1) <=? _); run.
  - destruct (State_eqb (state (breaker w1)) Open) eqn:Es; run.
    + apply State_eqb_eq in Es.
      eexists; repeat split; run; try assumption.
      destruct (onStateChange (breaker w1)); rewrite app_nil_r; reflexivity.
    + destruct (onStateChange (breaker w1)); run; eexists; repeat split.
      run. rewrite app_nil_r. reflexivity.
  - eexists; repeat split.
Qed.

(** C1, as the code has it. A call admitted on a closed breaker whose
    operation fails with [e] returns [e] itself. The current instant is
    appended to the failure record; with a positive window the leading
    timestamps that are not after [now - window] are then dropped, one
    exactly at [now - window] included, and the record starts at the first
    timestamp after it. If the record then holds at least [maxFailures]
    timestamps the breaker clears the record, becomes [Open] (telling the
    listener when the state changed) and arms an open timer due [timeout]
    from now; otherwise only the failure record changes. *)
Theorem Execute_closed_failure (fn : M error) (w w1 : World) (e : Err) :
  state (breaker w) = Closed ->
  fn w = Some (Some e, w1) ->
  let c1 := breaker w1 in
  let now := clock w1 in
  let kept := recorded now c1 in
  (exists dropped,
      failureTimes c1 ++ [now] = dropped ++ kept /\
      (window c1 <= 0 -> dropped = []) /\
      Forall (fun t => t <= now - window c1) dropped /\
      (0 < window c1 -> exists t rest, kept = t :: rest /\ now - window c1 < t)) /\
  exists w2,
    circuitbreaker.Execute fn w = Some (Some e, w2) /\
    (maxFailures c1 <= Z.of_nat (List.length kept) ->
       failureTimes (breaker w2) = [] /\
       state (breaker w2) = Open /\
       timers w2 = timers w1 ++ [time.Add now (timeout c1)] /\
       notified w2 = notified w1 ++ notification c1 Open) /\
    (Z.of_nat (List.length kept) < maxFailures c1 ->
       w2 = with_breaker (set_failureTimes kept) w1).
Proof.
  intros Hs Hfn c1 now kept. split.
  - unfold kept, recorded.
    destruct (Z.ltb_spec 0 (window c1)) as [Hw|Hw].
    + destruct (drop_expired_split (now - window c1) (failureTimes c1 ++ [now]))
        as [d [Hsplit [Hd Hh]]].
      exists d. repeat split; try assumption; [lia|].
      intros _.
      destruct (drop_expired_app_last (now - window c1) now (failureTimes c1))
        as [l' Hl']; [lia|].
      destruct (drop_expired (now - window c1) (failureTimes c1 ++ [now]))
        as [|t rest]; [destruct l'; discriminate|].
      exists t, rest. split; [reflexivity|assumption].
    + exists []. repeat split; [constructor|lia].
  - destruct (Execute_closed_failure_run fn w w1 e Hs Hfn)
      as [w2 [Hrun [_ [_ [_ Hcase]]]]].
    exists w2. split; [exact Hrun|].
    fold c1 now kept in Hcase.
    destruct (Z.leb_spec (maxFailures c1) (Z.of_nat (List.length kept))).
    + split; [|lia]. intros _. tauto.
    + split; [lia|]. intros _. exact Hcase.
Qed.

Lemma Execute_closed_failure_witness :
  let w := mkWorld (mkCircuitBreaker 2 10 1000 0 0 [5] 0 0 Closed (Some (listener 1)))
                   idle_bulkhead 10 [] [] 0 in
  exists w2,
    circuitbreaker.Execute failing w = Some (Some boom, w2) /\
    failureTimes (breaker w2) = [] /\
    state (breaker w2) = Open /\
    timers w2 = [1010] /\
    notified w2 = [(listener 1, Open)].
Proof.
  intros w.
  destruct (Execute_closed_failure failing w w boom eq_refl eq_refl)
    as [_ [w2 [Hrun [Htrip _]]]].
  exists w2. split; [exact Hrun|].
  apply Htrip. vm_compute. discriminate.
Defined.

(** C1 as it is worded does not hold: a timestamp exactly [window] old is
    dropped, where the wording keeps it. Window 10, one earlier failure
    at instant 0, a failure at instant 10: the record left is [[10]], the
    wording asks for [[0; 10]]. *)
Lemma Execute_closed_failure_drops_boundary :
  ~ (forall (fn : M error) (w w1 : World) (e : Err),
       state (breaker w) = Closed ->
       fn w = Some (Some e, w1) ->
       exists w2,
         circuitbreaker.Execute fn w = Some (Some e, w2) /\
         (Z.of_nat (List.length (recorded_as_specified (clock w1) (breaker w1)))
            < maxFailures (breaker w1) ->
          failureTimes (breaker w2) = recorded_as_specified (clock w1) (breaker w1))).
Proof.
  intros H.
  pose (w := mkWorld (mkCircuitBreaker 5 10 1000 0 0 [0] 0 0 Closed None)
                     idle_bulkhead 10 [] [] 0).
  destruct (H failing w w boom eq_refl eq_refl) as [w2 [Hrun Hrec]].
  vm_compute in Hrun. injection Hrun as <-.
  specialize (Hrec ltac:(vm_compute; reflexivity)).
  vm_compute in Hrec. discriminate.
Qed.

(** ** Trial calls of a half-open breaker *)

(** A half-open breaker within its trial time admits the call. *)
Lemma within_trial_admits (w : World) :
  within_trial w ->
  state (breaker w) = HalfOpen /\
  (0 <? trialDuration (breaker w)) &&
  (trialDuration (breaker w) <? time.Sub (clock w) (trialStart (breaker w))) = false.
Proof.
  intros [Hs Ht]. split; [exact Hs|].
  destruct (Z.ltb_spec 0 (trialDuration (breaker w))); [|reflexivity].
  destruct (Z.ltb_spec (trialDuration (breaker w))
                       (time.Sub (clock w) (trialStart (breaker w))));
    [lia|reflexivity].
Qed.

(** The second critical section after a failed trial call. *)
Lemma Execute_trial_failure_run (fn : M error) (w w1 : World) (e : Err) :
  within_trial w ->
  fn w = Some (Some e, w1) ->
  exists w2,
    circuitbreaker.Execute fn w = Some (Some e, w2) /\
    failureTimes (breaker w2) = failureTimes (breaker w1) /\
    trialCount (breaker w2) = wrap64 (trialCount (breaker w1) + 1) /\
    state (breaker w2) = Open /\
    timers w2 = timers w1 ++ [time.Add (clock w1) (timeout (breaker w1))] /\
    notified w2 = notified w1 ++ notification (breaker w1) Open /\
    bulkhead w2 = bulkhead w1.
Proof.
  intros Hin Hfn. destruct (within_trial_admits w Hin) as [Hs Hadm].
  unfold notification.
  run. rewrite Hs. run. rewrite Hadm. run. rewrite Hfn. run.
  destruct (State_eqb (state (breaker w1)) Open) eqn:Es; run.
  - apply State_eqb_eq in Es.
    eexists; repeat split; run; try assumption.
    destruct (onStateChange (breaker w1)); rewrite app_nil_r; reflexivity.
  - destruct (onStateChange (breaker w1)); run; eexists; repeat split.
    run. rewrite app_nil_r. reflexivity.
Qed.

(** C4, as the code has it. A trial call admitted on a half-open breaker
    whose operation fails with [e] returns [e] itself; the breaker counts
    the trial, becomes [Open] (telling the listener when the state
    changed) and arms an open timer due [timeout] from now, whatever
    [trialRequests] is. The failure record is left as it is: no timestamp
    is appended on this path. *)
Theorem Execute_trial_failure (fn : M error) (w w1 : World) (e : Err) :
  within_trial w ->
  fn w = Some (Some e, w1) ->
  exists w2,
    circuitbreaker.Execute fn w = Some (Some e, w2) /\
    failureTimes (breaker w2) = failureTimes (breaker w1) /\
    trialCount (breaker w2) = wrap64 (trialCount (breaker w1) + 1) /\
    state (breaker w2) = Open /\
    timers w2 = timers w1 ++ [time.Add (clock w1) (timeout (breaker w1))] /\
    notified w2 = notified w1 ++ notification (breaker w1) Open.
Proof.
  intros Hin Hfn.
  destruct (Execute_trial_failure_run fn w w1 e Hin Hfn)
    as [w2 [Hrun [Hf [Hc [Hs [Ht [Hn _]]]]]]].
  exists w2. repeat split; assumption.
Qed.

Lemma Execute_trial_failure_witness :
  let w := mkWorld (mkCircuitBreaker 2 0 1000 3 50 [] 0 100 HalfOpen (Some (listener 1)))
                   idle_bulkhead 120 [] [] 0 in
  exists w2,
    circuitbreaker.Execute failing w = Some (Some boom, w2) /\
    failureTimes (breaker w2) = [] /\
    trialCount (breaker w2) = 1 /\
    state (breaker w2) = Open /\
    timers w2 = [1120] /\
    notified w2 = [(listener 1, Open)].
Proof.
  intros w.
  assert (Hin : within_trial w).
  { split; [reflexivity|]. right. vm_compute. discriminate. }
  destruct (Execute_trial_failure failing w w boom Hin eq_refl)
    as [w2 [Hrun [Hf [Hc [Hs [Ht Hn]]]]]].
  exists w2. repeat split; assumption.
Defined.

(** C4 as it is worded does not hold: a failed trial call appends nothing
    to the failure record. Half-open breaker with an empty record and no
    window, trial started at instant 100 with 50 allowed, failure at
    instant 120: the record is still empty afterwards. *)
Lemma Execute_trial_failure_records_nothing :
  ~ (forall (fn : M error) (w w1 : World) (e : Err),
       within_trial w ->
       fn w = Some (Some e, w1) ->
       exists w2 t,
         circuitbreaker.Execute fn w = Some (Some e, w2) /\
         failureTimes (breaker w2) = failureTimes (breaker w1) ++ [t] /\
         state (breaker w2) = Open).
Proof.
  intros H.
  pose (w := mkWorld (mkCircuitBreaker 2 0 1000 3 50 [] 0 100 HalfOpen None)
                     idle_bulkhead 120 [] [] 0).
  assert (Hin : within_trial w).
  { split; [reflexivity|]. right. vm_compute. discriminate. }
  destruct (H failing w w boom Hin eq_refl) as [w2 [t [Hrun [Hrec _]]]].
  vm_compute in Hrun. injection Hrun as <-.
  vm_compute in Hrec. discriminate.
Qed.

(** ** Successful calls *)

(** C5. A call whose operation succeeds returns success. Admitted on a
    closed breaker, it clears the failure record (and the trial count).
    Admitted as a trial on a half-open breaker, it counts the trial; when
    [trialRequests] is 0 or the count has reached it, the breaker becomes
    [Closed] (telling the listener when the state changed) and the
    failure record and trial count are cleared, the recorded trial start
    staying as it is; otherwise only the trial count changes. *)
Theorem Execute_success (fn : M error) (w w1 : World) :
  fn w = Some (None, w1) ->
  (state (breaker w) = Closed ->
   exists w2,
     circuitbreaker.Execute fn w = Some (None, w2) /\
     failureTimes (breaker w2) = [] /\
     w2 = with_breaker (set_trialCount 0) (with_breaker (set_failureTimes []) w1)) /\
  (within_trial w ->
   let n := wrap64 (trialCount (breaker w1) + 1) in
   (- 2 ^ 63 <= trialCount (breaker w1) < 2 ^ 63 - 1 ->
    n = trialCount (breaker w1) + 1) /\
   exists w2,
     circuitbreaker.Execute fn w = Some (None, w2) /\
     (trialRequests (breaker w1) = 0 \/ trialRequests (breaker w1) <= n ->
      state (breaker w2) = Closed /\
      failureTimes (breaker w2) = [] /\
      trialCount (breaker w2) = 0 /\
      trialStart (breaker w2) = trialStart (breaker w1) /\
      notified w2 = notified w1 ++ notification (breaker w1) Closed /\
      timers w2 = timers w1) /\
     (trialRequests (breaker w1) <> 0 /\ n < trialRequests (breaker w1) ->
      w2 = with_breaker (set_trialCount n) w1)).
Proof.
  intros Hfn. split.
  - intros Hs. run. rewrite Hs. run. rewrite Hfn. run.
    eexists; repeat split.
  - intros Hin n. split; [intros Hr; apply wrap64_small; lia|].
    destruct (within_trial_admits w Hin) as [Hs Hadm].
    unfold notification.
    run. rewrite Hs. run. rewrite Hadm. run. rewrite Hfn. run. fold n.
    destruct (Z.eqb_spec (trialRequests (breaker w1)) 0) as [H0|H0];
      [|destruct (Z.leb_spec (trialRequests (breaker w1)) n) as [Hle|Hlt]]; run.
    1,2: destruct (State_eqb (state (breaker w1)) Closed) eqn:Es; run;
         [ apply State_eqb_eq in Es | ];
         destruct (onStateChange (breaker w1)); run;
         (eexists; split; [reflexivity|]; split; [|intros [? ?]; lia]);
         intros _; run; repeat split; rewrite ?app_nil_r; solve [reflexivity|assumption].
    eexists; split; [reflexivity|]. split; [intros [?|?]; lia|].
    intros _. reflexivity.
Qed.

Lemma Execute_success_witness :
  let closed := mkWorld (mkCircuitBreaker 3 0 1000 0 0 [4; 7] 0 0 Closed None)
                        idle_bulkhead 9 [] [] 0 in
  let trial := mkWorld (mkCircuitBreaker 3 0 1000 2 0 [] 1 100 HalfOpen (Some (listener 1)))
                       idle_bulkhead 120 [] [] 0 in
  (exists w2, circuitbreaker.Execute succeeding closed = Some (None, w2) /\
              failureTimes (breaker w2) = []) /\
  (exists w2, circuitbreaker.Execute succeeding trial = Some (None, w2) /\
              state (breaker w2) = Closed /\
              trialCount (breaker w2) = 0 /\
              notified w2 = [(listener 1, Closed)]).
Proof.
  intros closed trial. split.
  - destruct (Execute_success succeeding closed closed eq_refl) as [Hc _].
    destruct (Hc eq_refl) as [w2 [Hrun [Hf _]]].
    exists w2. split; assumption.
  - destruct (Execute_success succeeding trial trial eq_refl) as [_ Ht].
    assert (Hin : within_trial trial).
    { split; [reflexivity|]. left. simpl. lia. }
    destruct (Ht Hin) as [_ [w2 [Hrun [Hclose _]]]].
    exists w2. split; [exact Hrun|].
    destruct Hclose as [Hs [_ [Hc [_ [Hn _]]]]].
    { right. vm_compute. discriminate. }
    repeat split; assumption.
Defined.

(** ** The bulkhead *)

Lemma units_snoc (l : list unit) : l ++ [tt] = tt :: l.
Proof.
  induction l as [|[] l IH]; simpl; [reflexivity|]. rewrite IH. reflexivity.
Qed.

(** With no slot left the call is turned away and nothing changes. *)
Lemma bulkhead_full_run (fn : M error) (w : World) :
  full w -> bulkhead.Execute fn w = Some (Some ErrFull, w).
Proof.
  unfold full, inFlight. intros H. run.
  destruct (Z.ltb_spec (Z.of_nat (Datatypes.length (buf (sem (bulkhead w)))))
                       (cap (sem (bulkhead w)))); [lia|reflexivity].
Qed.

(** C6. With a slot left, [Execute] claims it, runs the operation once in
    the world where the slot is taken, then gives the slot back whether
    the operation succeeded or failed, and returns what the operation
    returned; when the operation left the bulkhead alone, the occupancy
    is back to what it was before the call. With no slot left, [Execute]
    returns [ErrFull], the operation is not run, whatever it is, and
    nothing changes. *)
Theorem bulkhead_Execute_admission (fn : M error) (w : World) :
  (inFlight w < cap (sem (bulkhead w)) ->
   inFlight (claimed w) = inFlight w + 1 /\
   forall (r : error) (w1 : World),
     fn (claimed w) = Some (r, w1) ->
     0 < inFlight w1 ->
     exists w2,
       bulkhead.Execute fn w = Some (r, w2) /\
       inFlight w2 = inFlight w1 - 1 /\
       cap (sem (bulkhead w2)) = cap (sem (bulkhead w1)) /\
       breaker w2 = breaker w1 /\
       clock w2 = clock w1 /\
       timers w2 = timers w1 /\
       notified w2 = notified w1 /\
       statusCode w2 = statusCode w1 /\
       (bulkhead w1 = bulkhead (claimed w) -> bulkhead w2 = bulkhead w)) /\
  (full w ->
   bulkhead.Execute fn w = Some (Some ErrFull, w) /\
   bulkhead.Execute (fun _ => None) w = Some (Some ErrFull, w)).
Proof.
  split.
  - intros Hroom. split.
    { unfold inFlight, claimed, send. run. rewrite length_app. simpl. lia. }
    intros r w1 Hfn Hheld.
    apply Z.ltb_lt in Hroom. unfold inFlight in Hroom, Hheld.
    unfold claimed in Hfn |- *. unfold inFlight. run. rewrite Hroom. run.
    revert Hfn. run. intros Hfn. rewrite Hfn. run.
    destruct (bulkhead w1) as [[c1 b1]] eqn:Eb1; run.
    destruct b1 as [|[] b1]; [simpl in Hheld; lia|].
    eexists. split; [reflexivity|]. run.
    split; [cbn [List.length]; lia|].
    do 6 (split; [reflexivity|]).
    destruct (bulkhead w) as [[c0 b0]]; run.
    rewrite units_snoc. intros Heq. injection Heq as -> ->. reflexivity.
  - intros Hfull. split; apply bulkhead_full_run; exact Hfull.
Qed.

Lemma bulkhead_Execute_admission_witness :
  let w := mkWorld (mkCircuitBreaker 3 0 1000 0 0 [] 0 0 Closed None)
                   (mkBulkhead (mkChan 2 [tt])) 5 [] [] 0 in
  let busy := mkWorld (mkCircuitBreaker 3 0 1000 0 0 [] 0 0 Closed None)
                      (mkBulkhead (mkChan 2 [tt; tt])) 5 [] [] 0 in
  (exists w2, bulkhead.Execute failing w = Some (Some boom, w2) /\
              bulkhead w2 = bulkhead w) /\
  bulkhead.Execute failing busy = Some (Some ErrFull, busy).
Proof.
  intros w busy.
  destruct (bulkhead_Execute_admission failing w) as [Hroom _].
  destruct (bulkhead_Execute_admission failing busy) as [_ Hfull].
  split.
  - destruct Hroom as [_ Hrun]; [vm_compute; reflexivity|].
    destruct (Hrun (Some boom) (claimed w) eq_refl) as [w2 [Hex [_ [_ [_ [_ [_ [_ [_ Hb]]]]]]]]].
    { vm_compute. reflexivity. }
    exists w2. split; [exact Hex|]. apply Hb. reflexivity.
  - apply Hfull. vm_compute. discriminate.
Defined.

(** C10. [Limit(0)] builds a bulkhead on a channel of capacity 0, and on
    such a bulkhead every [Execute] returns [ErrFull] without running the
    operation, whatever it is, and leaves the world (so the channel too)
    as it was. *)
Theorem zero_limit_rejects_all (b : bulkhead.Builder) :
  bulkhead.Build (bulkhead.Limit 0 b) = Some (mkBulkhead (mkChan 0 [])) /\
  forall (fn : M error) (w : World),
    cap (sem (bulkhead w)) = 0 ->
    bulkhead.Execute fn w = Some (Some ErrFull, w) /\
    bulkhead.Execute (fun _ => None) w = Some (Some ErrFull, w).
Proof.
  split; [reflexivity|].
  intros fn w Hcap.
  assert (Hfull : full w) by (unfold full, inFlight; lia).
  split; apply bulkhead_full_run; exact Hfull.
Qed.

Lemma zero_limit_rejects_all_witness :
  let w := mkWorld (mkCircuitBreaker 3 0 1000 0 0 [] 0 0 Closed None)
                   (mkBulkhead (mkChan 0 [])) 5 [] [] 0 in
  bulkhead.Build (bulkhead.Limit 0 bulkhead.NewBuilder) = Some (bulkhead w) /\
  bulkhead.Execute succeeding w = Some (Some ErrFull, w).
Proof.
  intros w.
  destruct (zero_limit_rejects_all bulkhead.NewBuilder) as [Hbuild Hrej].
  split; [exact Hbuild|].
  apply (Hrej succeeding w). reflexivity.
Defined.

(** ** Composition in the client *)

(** A breaker's fast-fail leaves the bulkhead alone, whatever the wrapped
    computation is. *)
Lemma Execute_fast_fail_run (fn : M error) (w : World) :
  fast_fails w ->
  exists w',
    circuitbreaker.Execute fn w = Some (Some ErrOpen, w') /\
    bulkhead w' = bulkhead w.
Proof.
  intros [Hopen|[Hs [Hd He]]].
  - exists w. split; [apply Execute_open_run; exact Hopen|reflexivity].
  - destruct (Execute_trial_expired_run fn w Hs Hd He)
      as [w' [Hrun [_ [_ [_ [Hbh _]]]]]].
    exists w'. split; assumption.
Qed.

(** C7. [execute] nests the guards that are present: breaker around
    bulkhead around the operation, one guard around the operation, or the
    operation alone. With both present: a call the breaker turns away
    returns [ErrOpen] and the bulkhead is as before, no slot having been
    claimed; and when the bulkhead is full, the breaker sees [ErrFull] as
    the failure of its operation and returns it: a closed breaker appends
    the current instant to its failure record, which is then compared
    with [maxFailures] and trips the breaker when it reaches it, and a
    half-open breaker within its trial time reopens. *)
Theorem execute_composition (c : httpclient.Client) (fn : M error) :
  (httpclient.CB c = true -> httpclient.BH c = true ->
   httpclient.execute c fn = circuitbreaker.Execute (bulkhead.Execute fn)) /\
  (httpclient.CB c = true -> httpclient.BH c = false ->
   httpclient.execute c fn = circuitbreaker.Execute fn) /\
  (httpclient.CB c = false -> httpclient.BH c = true ->
   httpclient.execute c fn = bulkhead.Execute fn) /\
  (httpclient.CB c = false -> httpclient.BH c = false ->
   httpclient.execute c fn = fn) /\
  (forall w : World,
     httpclient.CB c = true -> httpclient.BH c = true ->
     fast_fails w ->
     exists w',
       httpclient.execute c fn w = Some (Some ErrOpen, w') /\
       bulkhead w' = bulkhead w) /\
  (forall w : World,
     httpclient.CB c = true -> httpclient.BH c = true ->
     full w ->
     httpclient.execute c fn w =
       circuitbreaker.Execute (ret (Some ErrFull)) w /\
     (state (breaker w) = Closed ->
      let kept := recorded (clock w) (breaker w) in
      (exists earlier, kept = earlier ++ [clock w]) /\
      exists w2,
        httpclient.execute c fn w = Some (Some ErrFull, w2) /\
        bulkhead w2 = bulkhead w /\
        (maxFailures (breaker w) <= Z.of_nat (List.length kept) ->
         state (breaker w2) = Open /\ failureTimes (breaker w2) = []) /\
        (Z.of_nat (List.length kept) < maxFailures (breaker w) ->
         state (breaker w2) = Closed /\ failureTimes (breaker w2) = kept)) /\
     (within_trial w ->
      exists w2,
        httpclient.execute c fn w = Some (Some ErrFull, w2) /\
        bulkhead w2 = bulkhead w /\
        state (breaker w2) = Open)).
Proof.
  unfold httpclient.execute.
  do 4 (split; [intros -> ->; reflexivity|]).
  split.
  - intros w -> -> Hff. cbn [andb]. apply Execute_fast_fail_run. exact Hff.
  - intros w -> -> Hfull. cbn [andb].
    assert (Hbh : bulkhead.Execute fn w = Some (Some ErrFull, w))
      by (apply bulkhead_full_run; exact Hfull).
    assert (Hsame : circuitbreaker.Execute (bulkhead.Execute fn) w =
                    circuitbreaker.Execute (ret (Some ErrFull)) w).
    { cbv [circuitbreaker.Execute bind gets Now circuitbreaker.Since ret].
      destruct (State_eqb (state (breaker w)) HalfOpen && _ && _); [reflexivity|].
      destruct (State_eqb (state (breaker w)) Open); [reflexivity|].
      rewrite Hbh. reflexivity. }
    split; [exact Hsame|]. split.
    + intros Hs. set (kept := recorded (clock w) (breaker w)).
      split; [apply recorded_last|].
      destruct (Execute_closed_failure_run (bulkhead.Execute fn) w w ErrFull Hs Hbh)
        as [w2 [Hrun [Hb [_ [_ Hcase]]]]].
      exists w2. split; [exact Hrun|]. split; [exact Hb|].
      fold kept in Hcase.
      destruct (Z.leb_spec (maxFailures (breaker w)) (Z.of_nat (List.length kept))).
      * split; [|lia]. intros _. tauto.
      * split; [lia|]. intros _. subst w2. run. split; [exact Hs|reflexivity].
    + intros Hin.
      destruct (Execute_trial_failure_run (bulkhead.Execute fn) w w ErrFull Hin Hbh)
        as [w2 [Hrun [_ [_ [Hs [_ [_ Hb]]]]]]].
      exists w2. repeat split; assumption.
Qed.

Lemma execute_composition_witness :
  let c := httpclient.mkClient true true in
  let open := mkWorld (mkCircuitBreaker 2 0 1000 0 0 [] 0 0 Open None)
                      idle_bulkhead 5 [] [] 0 in
  let busy := mkWorld (mkCircuitBreaker 2 0 1000 0 0 [3] 0 0 Closed None)
                      (mkBulkhead (mkChan 1 [tt])) 5 [] [] 0 in
  (exists w', httpclient.execute c succeeding open = Some (Some ErrOpen, w') /\
              bulkhead w' = bulkhead open) /\
  (exists w2, httpclient.execute c succeeding busy = Some (Some ErrFull, w2) /\
              bulkhead w2 = bulkhead busy /\
              state (breaker w2) = Open) /\
  httpclient.execute (httpclient.mkClient true false) succeeding =
    circuitbreaker.Execute succeeding /\
  httpclient.execute (httpclient.mkClient false true) succeeding =
    bulkhead.Execute succeeding /\
  httpclient.execute (httpclient.mkClient false false) succeeding = succeeding.
Proof.
  intros c open busy.
  destruct (execute_composition c succeeding) as [_ [_ [_ [_ [Hff Hfull]]]]].
  destruct (execute_composition (httpclient.mkClient true false) succeeding)
    as [_ [Hcb _]].
  destruct (execute_composition (httpclient.mkClient false true) succeeding)
    as [_ [_ [Hbh _]]].
  destruct (execute_composition (httpclient.mkClient false false) succeeding)
    as [_ [_ [_ [Hnone _]]]].
  split; [|split; [|split; [|split]]].
  - apply (Hff open eq_refl eq_refl). left. reflexivity.
  - destruct (Hfull busy eq_refl eq_refl) as [_ [Hclosed _]].
    { vm_compute. discriminate. }
    destruct (Hclosed eq_refl) as [_ [w2 [Hrun [Hb [Htrip _]]]]].
    exists w2. split; [exact Hrun|]. split; [exact Hb|].
    apply Htrip. vm_compute. discriminate.
  - apply Hcb; reflexivity.
  - apply Hbh; reflexivity.
  - apply Hnone; reflexivity.
Defined.

(** ** The call adapter *)

(** C8. The function that [Call] hands to [execute] returns whenever the
    transport does, in the world the transport left, and reports a failure
    exactly when the transport returned an error or the status of the
    response is 500 or more: the transport's own error is passed on as it
    is, a status of 500 or more becomes a server error carrying it, and
    anything else, a 4xx status too, is a success. *)
Theorem callFn_classifies (Do : M error) (DoDeadline : time.Time -> M error)
    (deadline : option time.Time) (w w1 : World) (terr : error) :
  match deadline with Some d => DoDeadline d | None => Do end w = Some (terr, w1) ->
  exists r : error,
    httpclient.callFn Do DoDeadline deadline w = Some (r, w1) /\
    (r <> None <-> terr <> None \/ 500 <= statusCode w1) /\
    (forall e, terr = Some e -> r = Some e) /\
    (terr = None -> 500 <= statusCode w1 -> r = Some (ErrServer (statusCode w1))) /\
    (terr = None -> 400 <= statusCode w1 < 500 -> r = None).
Proof.
  intros Ht.
  unfold httpclient.callFn, httpclient.StatusInternalServerError, bind.
  rewrite Ht. destruct terr as [e|]; run.
  - exists (Some e). split; [reflexivity|].
    split; [split; intros _; [left|]; discriminate|].
    split; [intros e0 He0; exact He0|].
    split; discriminate.
  - destruct (Z.leb_spec 500 (statusCode w1)) as [H5|H5].
    + exists (Some (ErrServer (statusCode w1))). split; [reflexivity|].
      split; [split; intros _; [right; exact H5|discriminate]|].
      split; [discriminate|].
      split; [reflexivity|lia].
    + exists None. split; [reflexivity|].
      split; [split; [congruence|intros [Hc|Hc]; [congruence|lia]]|].
      split; [discriminate|].
      split; [lia|reflexivity].
Qed.

Lemma callFn_classifies_witness :
  let w := mkWorld (mkCircuitBreaker 3 0 1000 0 0 [] 0 0 Closed None)
                   idle_bulkhead 5 [] [] 0 in
  let answer (code : Z) : M error :=
    fun w => Some (None, mkWorld (breaker w) (bulkhead w) (clock w) (timers w)
                                 (notified w) code) in
  let outcome (code : Z) :=
    option_map fst (httpclient.callFn (answer code) (fun _ => answer code) None w) in
  outcome 404 = Some None /\
  outcome 500 = Some (Some (ErrServer 500)) /\
  outcome 503 = Some (Some (ErrServer 503)).
Proof.
  intros w answer outcome. unfold outcome.
  destruct (callFn_classifies (answer 404) (fun _ => answer 404) None w _ None eq_refl)
    as [r4 [H4 [_ [_ [_ Hok]]]]].
  destruct (callFn_classifies (answer 500) (fun _ => answer 500) None w _ None eq_refl)
    as [r5 [H5 [_ [_ [Hsrv _]]]]].
  destruct (callFn_classifies (answer 503) (fun _ => answer 503) None w _ None eq_refl)
    as [r6 [H6 [_ [_ [Hsrv' _]]]]].
  rewrite H4, H5, H6. simpl.
  rewrite (Hok eq_refl) by (simpl; lia).
  rewrite (Hsrv eq_refl) by (simpl; lia).
  rewrite (Hsrv' eq_refl) by (simpl; lia).
  repeat split.
Defined.

(** ** The open timer and two runs of the whole machine *)

(** When an open timer fires the breaker becomes half-open, whatever its
    state was, with a fresh trial count and the trial starting now. *)
Lemma openTimerFired_run (w : World) :
  exists w',
    circuitbreaker.openTimerFired w = Some (tt, w') /\
    state (breaker w') = HalfOpen /\
    trialCount (breaker w') = 0 /\
    trialStart (breaker w') = clock w /\
    failureTimes (breaker w') = failureTimes (breaker w) /\
    notified w' = notified w ++ notification (breaker w) HalfOpen.
Proof.
  unfold notification. run.
  destruct (State_eqb (state (breaker w)) HalfOpen) eqn:Es; run.
  - apply State_eqb_eq in Es. eexists. split; [reflexivity|]. run.
    repeat split; try assumption.
    destruct (onStateChange (breaker w)); rewrite app_nil_r; reflexivity.
  - destruct (onStateChange (breaker w)); run;
      (eexists; split; [reflexivity|]); run; repeat split.
    rewrite app_nil_r. reflexivity.
Qed.

(** The breaker of the repository's example: two failures within 500ms
    open it, the third call is turned away. *)
Example two_failures_open_the_breaker :
  let ms := 1000000 in
  let cb := circuitbreaker.Build
              (circuitbreaker.OnStateChange (listener 0)
                (circuitbreaker.Timeout (2000 * ms)
                  (circuitbreaker.Window (500 * ms)
                    (circuitbreaker.MaxFailures 2 circuitbreaker.NewBuilder)))) in
  let w := mkWorld cb idle_bulkhead 0 [] [] 0 in
  let tick : M unit :=
    fun w => Some (tt, mkWorld (breaker w) (bulkhead w) (clock w + 100 * ms)
                               (timers w) (notified w) (statusCode w)) in
  let three :=
    (r1 <- circuitbreaker.Execute failing ;; tick ;;
     r2 <- circuitbreaker.Execute failing ;; tick ;;
     r3 <- circuitbreaker.Execute (fun _ => None) ;;
     ret [r1; r2; r3])%go in
  exists w',
    three w = Some ([Some boom; Some boom; Some ErrOpen], w') /\
    state (breaker w') = Open /\
    timers w' = [2100 * ms] /\
    notified w' = [(listener 0, Open)].
Proof.
  eexists. vm_compute. repeat split.
Qed.

(** After the timer has fired, two good trials close a breaker that asks
    for two. *)
Example two_trials_close_the_breaker :
  let w := mkWorld (mkCircuitBreaker 2 0 1000 2 0 [] 0 0 Open (Some (listener 0)))
                   idle_bulkhead 1000 [1000] [] 0 in
  let trial :=
    (circuitbreaker.openTimerFired ;;
     r1 <- circuitbreaker.Execute succeeding ;;
     s1 <- gets (fun w => state (breaker w)) ;;
     r2 <- circuitbreaker.Execute succeeding ;;
     s2 <- gets (fun w => state (breaker w)) ;;
     ret (r1, s1, r2, s2))%go in
  exists w',
    trial w = Some ((None, HalfOpen, None, Closed), w') /\
    notified w' = [(listener 0, HalfOpen); (listener 0, Closed)].
Proof.
  eexists. vm_compute. repeat split.
Qed.


(** * Further properties of the breaker *)

(** ** One call, whatever the path *)

Lemma same_settings_refl (c : CircuitBreaker) : same_settings c c.
Proof. repeat split. Qed.

Lemma fast_fails_or_admitted (w : World) : fast_fails w \/ admitted w.
Proof.
  unfold fast_fails, admitted, within_trial.
  destruct (state (breaker w)); [right; left; reflexivity|left; left; reflexivity|].
  destruct (Z.le_gt_cases (trialDuration (breaker w)) 0) as [H|H];
    [right; right; split; [reflexivity|left; exact H]|].
  destruct (Z.le_gt_cases (time.Sub (clock w) (trialStart (breaker w)))
                          (trialDuration (breaker w))) as [H'|H'].
  - right; right; split; [reflexivity|right; exact H'].
  - left; right. repeat split; assumption.
Qed.

Lemma fast_fails_not_admitted (w : World) : fast_fails w -> ~ admitted w.
Proof.
  unfold fast_fails, admitted, within_trial.
  intros [Ho|[Hs [Hd He]]] [Hc|[Hh [Hd'|He']]]; try congruence; lia.
Qed.

(** The first critical section lets an admitted call through. *)
Lemma admitted_passes (w : World) :
  admitted w ->
  State_eqb (state (breaker w)) HalfOpen &&
  (0 <? trialDuration (breaker w)) &&
  (trialDuration (breaker w) <? time.Sub (clock w) (trialStart (breaker w))) = false /\
  State_eqb (state (breaker w)) Open = false.
Proof.
  intros [Hc|Hin].
  - rewrite Hc. split; reflexivity.
  - destruct (within_trial_admits w Hin) as [Hs Hadm].
    rewrite Hs. cbn [State_eqb]. rewrite <- andb_assoc. cbn [andb].
    split; [exact Hadm|reflexivity].
Qed.

(** The second critical section, on every path of an admitted call: what
    is returned and what is left of the world the operation handed back. *)
Lemma Execute_admitted_run (fn : M error) (w w1 : World) (r : error) :
  admitted w ->
  fn w = Some (r, w1) ->
  exists w2,
    circuitbreaker.Execute fn w = Some (r, w2) /\
    bulkhead w2 = bulkhead w1 /\
    clock w2 = clock w1 /\
    statusCode w2 = statusCode w1 /\
    same_settings (breaker w2) (breaker w1) /\
    notified w2 = notified w1 ++ notification (breaker w1) (state (breaker w2)) /\
    (timers w2 = timers w1 \/
     timers w2 = timers w1 ++ [time.Add (clock w1) (timeout (breaker w1))] /\
     state (breaker w2) = Open) /\
    (below_threshold w1 -> below_threshold w2).
Proof.
  intros Hadm Hfn.
  assert (Hnote : forall l : list (Listener * State),
             l ++ notification (breaker w1) (state (breaker w1)) = l).
  { intros l. unfold notification. rewrite State_eqb_refl.
    destruct (onStateChange (breaker w1)); apply app_nil_r. }
  assert (Hset : forall (s : State) (l : list (Listener * State)),
             State_eqb (state (breaker w1)) s = false ->
             l ++ notification (breaker w1) s =
             match onStateChange (breaker w1) with
             | Some f => l ++ [(f, s)]
             | None => l
             end).
  { intros s l Hs. unfold notification. rewrite Hs.
    destruct (onStateChange (breaker w1)); [reflexivity|apply app_nil_r]. }
  destruct (admitted_passes w Hadm) as [Hpass Hnopen].
  unfold below_threshold.
  destruct Hadm as [Hc|[Hh _]].
  - (* snapshot Closed *)
    run. rewrite Hc in *. run. rewrite Hfn. run.
    destruct r as [e|]; run.
    + rewrite recordFailure_run. run.
      destruct (Z.leb_spec (maxFailures (breaker w1))
                  (Z.of_nat (Datatypes.length (recorded (clock w1) (breaker w1)))))
        as [Htrip|Hkeep]; run.
      * destruct (State_eqb (state (breaker w1)) Open) eqn:Es; run.
        -- apply State_eqb_eq in Es.
           eexists. split; [reflexivity|]. run.
           do 3 (split; [reflexivity|]). split; [repeat split|].
           split; [symmetry; apply Hnote|].
           split; [right; split; [reflexivity|exact Es]|].
           cbn [List.length]. intros Hb. lia.
        -- destruct (onStateChange (breaker w1)) eqn:El; run;
             (eexists; split; [reflexivity|]); run;
             (do 3 (split; [reflexivity|])); (split; [repeat split; symmetry; exact El|]);
             (split; [rewrite (Hset Open _ Es); reflexivity|]);
             (split; [right; split; reflexivity|]);
             cbn [List.length]; intros Hb; lia.
      * eexists. split; [reflexivity|]. run.
        do 3 (split; [reflexivity|]). split; [repeat split|].
        split; [symmetry; apply Hnote|].
        split; [left; reflexivity|].
        intros _. exact Hkeep.
    + eexists. split; [reflexivity|]. run.
      do 3 (split; [reflexivity|]). split; [repeat split|].
      split; [symmetry; apply Hnote|].
      split; [left; reflexivity|].
      cbn [List.length]. intros Hb. lia.
  - (* snapshot HalfOpen *)
    run. rewrite Hh in *. cbn [State_eqb andb] in Hpass. run.
    rewrite Hpass. run. rewrite Hfn. run.
    destruct r as [e|]; run.
    + destruct (State_eqb (state (breaker w1)) Open) eqn:Es; run.
      * apply State_eqb_eq in Es.
        eexists. split; [reflexivity|]. run.
        do 3 (split; [reflexivity|]). split; [repeat split|].
        split; [symmetry; apply Hnote|].
        split; [right; split; [reflexivity|exact Es]|].
        intros Hb; exact Hb.
      * destruct (onStateChange (breaker w1)) eqn:El; run;
          (eexists; split; [reflexivity|]); run;
          (do 3 (split; [reflexivity|])); (split; [repeat split; symmetry; exact El|]);
          (split; [rewrite (Hset Open _ Es); reflexivity|]);
          (split; [right; split; reflexivity|]);
          intros Hb; exact Hb.
    + destruct ((trialRequests (breaker w1) =? 0) ||
                (trialRequests (breaker w1) <=? wrap64 (trialCount (breaker w1) + 1)));
        run.
      * destruct (State_eqb (state (breaker w1)) Closed) eqn:Es; run.
        -- apply State_eqb_eq in Es.
           eexists. split; [reflexivity|]. run.
           do 3 (split; [reflexivity|]). split; [repeat split|].
           split; [symmetry; apply Hnote|].
           split; [left; reflexivity|].
           cbn [List.length]. intros Hb; lia.
        -- destruct (onStateChange (breaker w1)) eqn:El; run;
             (eexists; split; [reflexivity|]); run;
             (do 3 (split; [reflexivity|])); (split; [repeat split; symmetry; exact El|]);
             (split; [rewrite (Hset Closed _ Es); reflexivity|]);
             (split; [left; reflexivity|]);
             cbn [List.length]; intros Hb; lia.
      * eexists. split; [reflexivity|]. run.
        do 3 (split; [reflexivity|]). split; [repeat split|].
        split; [symmetry; apply Hnote|].
        split; [left; reflexivity|].
        intros Hb; exact Hb.
Qed.

(** A call that is turned away, on both fast-fail paths. *)
Lemma Execute_rejected_run (fn : M error) (w : World) :
  fast_fails w ->
  exists w',
    circuitbreaker.Execute fn w = Some (Some ErrOpen, w') /\
    bulkhead w' = bulkhead w /\
    clock w' = clock w /\
    statusCode w' = statusCode w /\
    same_settings (breaker w') (breaker w) /\
    notified w' = notified w ++ notification (breaker w) (state (breaker w')) /\
    (timers w' = timers w \/
     timers w' = timers w ++ [time.Add (clock w) (timeout (breaker w))] /\
     state (breaker w') = Open) /\
    state (breaker w') = Open /\
    failureTimes (breaker w') = failureTimes (breaker w) /\
    trialCount (breaker w') = trialCount (breaker w).
Proof.
  intros [Hopen|[Hs [Hd He]]].
  - exists w. split; [apply Execute_open_run; exact Hopen|].
    do 3 (split; [reflexivity|]). split; [apply same_settings_refl|].
    split.
    { unfold notification. rewrite State_eqb_refl.
      destruct (onStateChange (breaker w)); symmetry; apply app_nil_r. }
    split; [left; reflexivity|]. repeat split. exact Hopen.
  - destruct (Execute_trial_expired_run fn w Hs Hd He)
      as [w' [Hrun [Hb [Ht [Hn [Hbh [Hc Hsc]]]]]]].
    exists w'. split; [exact Hrun|].
    rewrite Hb. cbn [set_state state failureTimes trialCount].
    do 3 (split; [assumption|]). split; [repeat split|].
    split; [exact Hn|].
    split; [right; split; [exact Ht|reflexivity]|].
    repeat split.
Qed.

(** Every returning call, seen from the world [w1] its second critical
    section started in: [w] itself when the call was turned away, the
    world the operation left otherwise. *)
Lemma Execute_run_cases (fn : M error) (w w2 : World) (r : error) :
  circuitbreaker.Execute fn w = Some (r, w2) ->
  exists w1,
    (fast_fails w /\ w1 = w /\ r = Some ErrOpen \/
     admitted w /\ fn w = Some (r, w1)) /\
    bulkhead w2 = bulkhead w1 /\
    clock w2 = clock w1 /\
    statusCode w2 = statusCode w1 /\
    same_settings (breaker w2) (breaker w1) /\
    notified w2 = notified w1 ++ notification (breaker w1) (state (breaker w2)) /\
    (timers w2 = timers w1 \/
     timers w2 = timers w1 ++ [time.Add (clock w1) (timeout (breaker w1))] /\
     state (breaker w2) = Open) /\
    (below_threshold w1 -> below_threshold w2).
Proof.
  intros Hrun.
  destruct (fast_fails_or_admitted w) as [Hff|Hadm].
  - destruct (Execute_rejected_run fn w Hff)
      as [w' [Hrun' [Hb [Hc [Hsc [Hset [Hn [Ht [_ [Hf _]]]]]]]]]].
    rewrite Hrun' in Hrun. injection Hrun as <- <-.
    exists w. split; [left; repeat split; exact Hff|].
    do 6 (split; [assumption|]).
    unfold below_threshold. destruct Hset as [Hm _]. rewrite Hf, Hm. tauto.
  - destruct (fn w) as [[r1 w1]|] eqn:Hfn.
    + destruct (Execute_admitted_run fn w w1 r1 Hadm Hfn) as [w2' [Hrun' Hrest]].
      rewrite Hrun' in Hrun. injection Hrun as <- <-.
      exists w1. split; [right; split; [exact Hadm|reflexivity]|exact Hrest].
    + exfalso. destruct (admitted_passes w Hadm) as [Hpass Hnopen].
      revert Hrun.
      cbv [circuitbreaker.Execute bind gets Now circuitbreaker.Since ret].
      rewrite Hpass, Hnopen, Hfn. discriminate.
Qed.

(** X1. What [Execute] returns. A call is either turned away, and then
    [ErrOpen] comes back whatever the operation is, the breaker is open
    and its failure record is the one it had; or it is admitted, and then
    [Execute] returns exactly what the operation returns, and does not
    return when the operation does not. *)
Theorem Execute_guard_or_result (fn : M error) (w : World) :
  (fast_fails w /\ ~ admitted w /\
   exists w',
     circuitbreaker.Execute fn w = Some (Some ErrOpen, w') /\
     circuitbreaker.Execute (fun _ => None) w = Some (Some ErrOpen, w') /\
     state (breaker w') = Open /\
     failureTimes (breaker w') = failureTimes (breaker w)) \/
  (admitted w /\ ~ fast_fails w /\
   match fn w with
   | Some (r, w1) => exists w2, circuitbreaker.Execute fn w = Some (r, w2)
   | None => circuitbreaker.Execute fn w = None
   end).
Proof.
  destruct (fast_fails_or_admitted w) as [Hff|Hadm].
  - left. split; [exact Hff|]. split; [apply fast_fails_not_admitted; exact Hff|].
    destruct (Execute_rejected_run fn w Hff)
      as [w' [Hrun [_ [_ [_ [_ [_ [_ [Hs [Hf _]]]]]]]]]].
    exists w'. split; [exact Hrun|]. split; [|split; assumption].
    destruct (Execute_rejected_run (fun _ => None) w Hff) as [w'' [Hrun' _]].
    rewrite Hrun'. f_equal. f_equal.
    destruct Hff as [Hopen|[Hh [Hd He]]].
    + rewrite (Execute_open_run fn w Hopen) in Hrun.
      rewrite (Execute_open_run (fun _ => None) w Hopen) in Hrun'. congruence.
    + revert Hrun Hrun'. run.
      apply Z.ltb_lt in Hd. apply Z.ltb_lt in He. rewrite Hh, Hd, He. run.
      congruence.
  - right. split; [exact Hadm|].
    split; [intros Hff; exact (fast_fails_not_admitted w Hff Hadm)|].
    destruct (fn w) as [[r w1]|] eqn:Hfn.
    + destruct (Execute_admitted_run fn w w1 r Hadm Hfn) as [w2 [Hrun _]].
      exists w2. exact Hrun.
    + destruct (admitted_passes w Hadm) as [Hpass Hnopen].
      cbv [circuitbreaker.Execute bind gets Now circuitbreaker.Since ret].
      rewrite Hpass, Hnopen, Hfn. reflexivity.
Qed.

(** X2. What [Execute] leaves alone. Between the world its second
    critical section starts in (the one the operation left, or the
    original one when the call is turned away) and the world it returns,
    the bulkhead, the clock, the response status and every setting of the
    breaker (thresholds, durations, listener) are the same. *)
Theorem Execute_frame (fn : M error) (w w2 : World) (r : error) :
  circuitbreaker.Execute fn w = Some (r, w2) ->
  exists w1,
    (w1 = w /\ r = Some ErrOpen \/ fn w = Some (r, w1)) /\
    bulkhead w2 = bulkhead w1 /\
    clock w2 = clock w1 /\
    statusCode w2 = statusCode w1 /\
    same_settings (breaker w2) (breaker w1).
Proof.
  intros Hrun.
  destruct (Execute_run_cases fn w w2 r Hrun)
    as [w1 [Hcase [Hb [Hc [Hsc [Hset _]]]]]].
  exists w1. split; [|split; [exact Hb|split; [exact Hc|split; [exact Hsc|exact Hset]]]].
  destruct Hcase as [[_ [Hw Hr]]|[_ Hfn]]; [left; split; assumption|right; exact Hfn].
Qed.

Lemma Execute_frame_witness :
  let w := mkWorld (mkCircuitBreaker 1 0 1000 0 0 [] 0 0 Closed (Some (listener 1)))
                   (mkBulkhead (mkChan 3 [tt])) 10 [] [] 200 in
  exists w2,
    circuitbreaker.Execute failing w = Some (Some boom, w2) /\
    bulkhead w2 = bulkhead w /\
    maxFailures (breaker w2) = 1 /\
    onStateChange (breaker w2) = Some (listener 1).
Proof.
  intros w.
  assert (Hrun : exists w2, circuitbreaker.Execute failing w = Some (Some boom, w2))
    by (eexists; vm_compute; reflexivity).
  destruct Hrun as [w2 Hrun].
  destruct (Execute_frame failing w w2 (Some boom) Hrun)
    as [w1 [Hcase [Hb [_ [_ [Hm [_ [_ [_ [_ Hl]]]]]]]]]].
  assert (Hw1 : w1 = w).
  { destruct Hcase as [[Hw _]|Hfn]; [exact Hw|].
    cbv [failing ret] in Hfn. injection Hfn as Hw. symmetry; exact Hw. }
  subst w1. exists w2. repeat split; assumption.
Defined.

(** X3. The listener and the state across a whole call. The log of
    listener calls grows by one entry, carrying the new state, exactly when
    a listener is registered and the breaker's state after the call
    differs from its state when the second critical section began; in
    every other case the log is unchanged. *)
Theorem Execute_notifies_state_changes (fn : M error) (w w2 : World) (r : error) :
  circuitbreaker.Execute fn w = Some (r, w2) ->
  exists w1,
    (w1 = w /\ r = Some ErrOpen \/ fn w = Some (r, w1)) /\
    (forall f, onStateChange (breaker w1) = Some f ->
               state (breaker w2) <> state (breaker w1) ->
               notified w2 = notified w1 ++ [(f, state (breaker w2))]) /\
    (state (breaker w2) = state (breaker w1) -> notified w2 = notified w1) /\
    (onStateChange (breaker w1) = None -> notified w2 = notified w1).
Proof.
  intros Hrun.
  destruct (Execute_run_cases fn w w2 r Hrun)
    as [w1 [Hcase [_ [_ [_ [_ [Hn _]]]]]]].
  exists w1. split.
  { destruct Hcase as [[_ [Hw Hr]]|[_ Hfn]]; [left; split; assumption|right; exact Hfn]. }
  unfold notification in Hn. split; [|split].
  - intros f Hf Hne. rewrite Hf in Hn. rewrite Hn.
    destruct (State_eqb (state (breaker w1)) (state (breaker w2))) eqn:E;
      [|reflexivity].
    apply State_eqb_eq in E. congruence.
  - intros Heq. rewrite Hn, <- Heq, State_eqb_refl.
    destruct (onStateChange (breaker w1)); apply app_nil_r.
  - intros Hnone. rewrite Hn, Hnone. apply app_nil_r.
Qed.

Lemma Execute_notifies_state_changes_witness :
  let w := mkWorld (mkCircuitBreaker 3 0 1000 0 0 [] 0 0 Closed (Some (listener 1)))
                   idle_bulkhead 10 [] [(listener 1, Closed)] 0 in
  exists w2,
    circuitbreaker.Execute failing w = Some (Some boom, w2) /\
    state (breaker w2) = Closed /\
    notified w2 = [(listener 1, Closed)].
Proof.
  intros w.
  assert (Hrun : exists w2,
             circuitbreaker.Execute failing w = Some (Some boom, w2) /\
             state (breaker w2) = Closed)
    by (eexists; vm_compute; split; reflexivity).
  destruct Hrun as [w2 [Hrun Hs]].
  destruct (Execute_notifies_state_changes failing w w2 (Some boom) Hrun)
    as [w1 [Hcase [_ [Hsame _]]]].
  assert (Hw1 : w1 = w).
  { destruct Hcase as [[Hw _]|Hfn]; [exact Hw|].
    cbv [failing ret] in Hfn. injection Hfn as Hw. symmetry; exact Hw. }
  subst w1. exists w2. split; [exact Hrun|]. split; [exact Hs|].
  apply Hsame. exact Hs.
Defined.

(** X4. Timers. A call starts at most one open timer, due [timeout] after
    the instant its critical section ran at, and it starts one only when
    it leaves the breaker open; it never cancels or changes a timer that
    was pending. *)
Theorem Execute_arms_at_most_one_timer (fn : M error) (w w2 : World) (r : error) :
  circuitbreaker.Execute fn w = Some (r, w2) ->
  exists w1,
    (w1 = w /\ r = Some ErrOpen \/ fn w = Some (r, w1)) /\
    (timers w2 = timers w1 \/
     timers w2 = timers w1 ++ [time.Add (clock w1) (timeout (breaker w1))] /\
     state (breaker w2) = Open).
Proof.
  intros Hrun.
  destruct (Execute_run_cases fn w w2 r Hrun)
    as [w1 [Hcase [_ [_ [_ [_ [_ [Ht _]]]]]]]].
  exists w1. split; [|exact Ht].
  destruct Hcase as [[_ [Hw Hr]]|[_ Hfn]]; [left; split; assumption|right; exact Hfn].
Qed.

Lemma Execute_arms_at_most_one_timer_witness :
  let w := mkWorld (mkCircuitBreaker 1 0 1000 0 0 [] 0 0 Closed None)
                   idle_bulkhead 10 [7] [] 0 in
  exists w2,
    circuitbreaker.Execute succeeding w = Some (None, w2) /\
    timers w2 = [7].
Proof.
  intros w.
  assert (Hrun : exists w2,
             circuitbreaker.Execute succeeding w = Some (None, w2) /\
             state (breaker w2) = Closed)
    by (eexists; vm_compute; split; reflexivity).
  destruct Hrun as [w2 [Hrun Hs]].
  destruct (Execute_arms_at_most_one_timer succeeding w w2 None Hrun)
    as [w1 [Hcase Ht]].
  assert (Hw1 : w1 = w).
  { destruct Hcase as [[Hw _]|Hfn]; [exact Hw|].
    cbv [succeeding ret] in Hfn. injection Hfn as Hw. symmetry; exact Hw. }
  subst w1. exists w2. split; [exact Hrun|].
  destruct Ht as [Ht|[_ Ho]]; [exact Ht|congruence].
Defined.

(** X5. The failure record stays below the threshold. If the record is
    shorter than [maxFailures] before a call and the operation keeps it
    so, it is shorter than [maxFailures] after the call, on every path;
    the firing of an open timer keeps it so too. *)
Theorem Execute_keeps_below_threshold (fn : M error) (w w2 : World) (r : error) :
  below_threshold w ->
  (forall r1 w1, fn w = Some (r1, w1) -> below_threshold w1) ->
  circuitbreaker.Execute fn w = Some (r, w2) ->
  below_threshold w2 /\
  forall w3, circuitbreaker.openTimerFired w2 = Some (tt, w3) -> below_threshold w3.
Proof.
  intros Hb Hfn Hrun.
  destruct (Execute_run_cases fn w w2 r Hrun)
    as [w1 [Hcase [_ [_ [_ [_ [_ [_ Hkeep]]]]]]]].
  assert (Hb2 : below_threshold w2).
  { apply Hkeep. destruct Hcase as [[_ [-> _]]|[_ Hw1]]; [exact Hb|].
    exact (Hfn r w1 Hw1). }
  split; [exact Hb2|].
  intros w3 Hfire. revert Hfire Hb2. unfold below_threshold. run.
  destruct (State_eqb (state (breaker w2)) HalfOpen); run;
    [|destruct (onStateChange (breaker w2)); run];
    intros Hfire; injection Hfire as <-; run; tauto.
Qed.

Lemma Execute_keeps_below_threshold_witness :
  let w := mkWorld (mkCircuitBreaker 3 0 1000 0 0 [1; 2] 0 0 Closed None)
                   idle_bulkhead 10 [] [] 0 in
  exists w2,
    circuitbreaker.Execute failing w = Some (Some boom, w2) /\
    below_threshold w2.
Proof.
  intros w.
  assert (Hrun : exists w2, circuitbreaker.Execute failing w = Some (Some boom, w2))
    by (eexists; vm_compute; reflexivity).
  destruct Hrun as [w2 Hrun].
  assert (Hb : below_threshold w) by (vm_compute; reflexivity).
  destruct (Execute_keeps_below_threshold failing w w2 (Some boom) Hb) as [Hb2 _].
  - intros r1 w1 Hfn. cbv [failing ret] in Hfn. injection Hfn as _ <-. exact Hb.
  - exact Hrun.
  - exists w2. split; [exact Hrun|exact Hb2].
Defined.

(** X6. A threshold of one or less. On a closed breaker whose
    [maxFailures] is 1, 0 or negative, a single failure opens the breaker:
    the record is cleared, the state is [Open], a timer is started and the
    failure is returned. *)
Theorem Execute_low_threshold_trips (fn : M error) (w w1 : World) (e : Err) :
  state (breaker w) = Closed ->
  fn w = Some (Some e, w1) ->
  maxFailures (breaker w1) <= 1 ->
  exists w2,
    circuitbreaker.Execute fn w = Some (Some e, w2) /\
    state (breaker w2) = Open /\
    failureTimes (breaker w2) = [] /\
    timers w2 = timers w1 ++ [time.Add (clock w1) (timeout (breaker w1))].
Proof.
  intros Hs Hfn Hm.
  destruct (Execute_closed_failure_run fn w w1 e Hs Hfn)
    as [w2 [Hrun [_ [_ [_ Hcase]]]]].
  exists w2. split; [exact Hrun|].
  destruct (recorded_last (clock w1) (breaker w1)) as [l' Hl'].
  destruct (Z.leb_spec (maxFailures (breaker w1))
              (Z.of_nat (Datatypes.length (recorded (clock w1) (breaker w1)))))
    as [_|Hlt].
  - tauto.
  - rewrite Hl', length_app in Hlt. simpl in Hlt. lia.
Qed.

Lemma Execute_low_threshold_trips_witness :
  let w := mkWorld (mkCircuitBreaker 0 0 1000 0 0 [] 0 0 Closed None)
                   idle_bulkhead 10 [] [] 0 in
  exists w2,
    circuitbreaker.Execute failing w = Some (Some boom, w2) /\
    state (breaker w2) = Open /\
    timers w2 = [1010].
Proof.
  intros w.
  destruct (Execute_low_threshold_trips failing w w boom eq_refl eq_refl)
    as [w2 [Hrun [Hs [_ Ht]]]].
  - simpl. lia.
  - exists w2. repeat split; assumption.
Defined.

(** ** The failure record in time order *)

Lemma in_order_snoc (now : time.Time) (l : list time.Time) :
  in_order now l -> in_order now (l ++ [now]).
Proof.
  induction l as [|t l IH]; simpl.
  - intros _. repeat split; [lia|constructor].
  - intros [Ht [Hall Hrest]]. repeat split; [exact Ht| |exact (IH Hrest)].
    apply Forall_app. split; [exact Hall|]. constructor; [exact Ht|constructor].
Qed.

Lemma in_order_drop_expired (now cutoff : time.Time) (l : list time.Time) :
  in_order now l ->
  in_order now (drop_expired cutoff l) /\
  drop_expired cutoff l = filter (fun t => cutoff <? t) l /\
  Forall (fun t => cutoff < t <= now) (drop_expired cutoff l).
Proof.
  induction l as [|t l IH]; simpl.
  - intros _. repeat split; constructor.
  - intros [Ht [Hall Hrest]].
    destruct (Z.ltb_spec cutoff t) as [Hlt|Hge]; [|exact (IH Hrest)].
    assert (Hlater : Forall (fun u => cutoff < u <= now) l).
    { clear IH. induction l as [|u l IHl]; [constructor|].
      simpl in Hrest. destruct Hrest as [Hu [Hall' Hrest']].
      inversion Hall as [|? ? Htu Hall'']; subst.
      constructor; [lia|]. apply IHl; assumption. }
    repeat split; try assumption.
    + f_equal. symmetry. apply forallb_filter_id. apply forallb_forall.
      intros u Hu. rewrite Forall_forall in Hlater.
      apply Z.ltb_lt. apply (Hlater u Hu).
    + constructor; [lia|exact Hlater].
Qed.

(** X7. A record in time order. When the timestamps of the record are in
    time order and none is later than the clock, [recordFailure] leaves a
    record that is again in time order; with a positive window it is
    exactly the old record and the new timestamp without every timestamp
    that is not after [now - window], so all that is kept lies within the
    window; without a window the new timestamp is simply added. *)
Theorem recordFailure_in_order (w : World) :
  in_order (clock w) (failureTimes (breaker w)) ->
  exists w',
    circuitbreaker.recordFailure w = Some (tt, w') /\
    in_order (clock w) (failureTimes (breaker w')) /\
    (0 < window (breaker w) ->
     failureTimes (breaker w') =
       filter (fun t => clock w - window (breaker w) <? t)
              (failureTimes (breaker w) ++ [clock w]) /\
     Forall (fun t => clock w - window (breaker w) < t <= clock w)
            (failureTimes (breaker w'))) /\
    (window (breaker w) <= 0 ->
     failureTimes (breaker w') = failureTimes (breaker w) ++ [clock w]).
Proof.
  intros Hord. rewrite recordFailure_run. eexists. split; [reflexivity|].
  run. unfold recorded.
  pose proof (in_order_snoc _ _ Hord) as Hsnoc.
  destruct (in_order_drop_expired (clock w) (clock w - window (breaker w)) _ Hsnoc)
    as [Hkeep [Hfilter Hwithin]].
  destruct (Z.ltb_spec 0 (window (breaker w))) as [Hw|Hw].
  - split; [exact Hkeep|]. split; [intros _; split; assumption|lia].
  - split; [exact Hsnoc|]. split; [lia|reflexivity].
Qed.

Lemma recordFailure_in_order_witness :
  let w := mkWorld (mkCircuitBreaker 5 10 1000 0 0 [1; 5; 8] 0 0 Closed None)
                   idle_bulkhead 15 [] [] 0 in
  exists w',
    circuitbreaker.recordFailure w = Some (tt, w') /\
    failureTimes (breaker w') = [8; 15].
Proof.
  intros w.
  assert (Hord : in_order (clock w) (failureTimes (breaker w))).
  { simpl. repeat split; try lia; repeat constructor; lia. }
  destruct (recordFailure_in_order w Hord) as [w' [Hrun [_ [Hwin _]]]].
  exists w'. split; [exact Hrun|].
  destruct Hwin as [Hf _]; [simpl; lia|]. rewrite Hf. reflexivity.
Defined.

(** ** Runs of calls *)

Lemma calls_step (n : nat) (fn : M error) (w w2 : World) (r : error) :
  circuitbreaker.Execute fn w = Some (r, w2) ->
  calls (S n) fn w =
  match calls n fn w2 with
  | Some (rs, w') => Some (r :: rs, w')
  | None => None
  end.
Proof.
  intros H. cbn [calls]. unfold bind at 1. rewrite H.
  unfold bind, ret. destruct (calls n fn w2) as [[rs w']|]; reflexivity.
Qed.

(** Failures that do not reach the threshold keep the breaker closed. *)
Lemma calls_below_threshold (fn : M error) (k : nat) (w : World) :
  always_fails fn ->
  state (breaker w) = Closed ->
  window (breaker w) <= 0 ->
  Z.of_nat (List.length (failureTimes (breaker w))) + Z.of_nat k
    < maxFailures (breaker w) ->
  exists rs wk,
    calls k fn w = Some (rs, wk) /\
    List.length rs = k /\
    Forall (fun r => r <> None) rs /\
    state (breaker wk) = Closed /\
    window (breaker wk) = window (breaker w) /\
    maxFailures (breaker wk) = maxFailures (breaker w) /\
    List.length (failureTimes (breaker wk)) =
      (List.length (failureTimes (breaker w)) + k)%nat.
Proof.
  intros Hfn. revert w. induction k as [|k IH]; intros w Hs Hw Hlen.
  - exists [], w.
    split; [reflexivity|]. split; [reflexivity|]. split; [constructor|].
    split; [exact Hs|]. do 2 (split; [reflexivity|]). lia.
  - destruct (Hfn w) as [e [w1 [Hrun1 Hb1]]].
    destruct (Execute_closed_failure_run fn w w1 e Hs Hrun1)
      as [w2 [Hrun [_ [_ [_ Hcase]]]]].
    assert (Hrec : recorded (clock w1) (breaker w1) =
                   failureTimes (breaker w) ++ [clock w1]).
    { unfold recorded. rewrite Hb1.
      destruct (Z.ltb_spec 0 (window (breaker w))); [lia|reflexivity]. }
    rewrite Hrec, length_app, Hb1 in Hcase. cbn [List.length] in Hcase.
    destruct (Z.leb_spec (maxFailures (breaker w))
                (Z.of_nat (Datatypes.length (failureTimes (breaker w)) + 1)));
      [lia|].
    assert (Hb2 : breaker w2 =
                  set_failureTimes (failureTimes (breaker w) ++ [clock w1]) (breaker w)).
    { rewrite Hcase. unfold with_breaker. cbn [breaker]. rewrite Hb1. reflexivity. }
    destruct (IH w2) as [rs [wk [Hcalls [Hl [Hall [Hsk [Hwk [Hmk Hlk]]]]]]]].
    + rewrite Hb2. exact Hs.
    + rewrite Hb2. exact Hw.
    + rewrite Hb2. cbn [set_failureTimes failureTimes maxFailures].
      rewrite length_app. cbn [List.length]. lia.
    + exists (Some e :: rs), wk.
      rewrite (calls_step k fn w w2 (Some e) Hrun), Hcalls.
      rewrite Hb2 in Hwk, Hmk, Hlk.
      cbn [set_failureTimes failureTimes maxFailures window] in Hwk, Hmk, Hlk.
      rewrite length_app in Hlk. cbn [List.length] in Hlk.
      repeat split; try assumption.
      * cbn [List.length]. lia.
      * constructor; [discriminate|exact Hall].
      * lia.
Qed.

(** The call that brings the record to the threshold opens the breaker. *)
Lemma calls_reach_threshold (fn : M error) (m : nat) (w : World) :
  always_fails fn ->
  state (breaker w) = Closed ->
  window (breaker w) <= 0 ->
  Z.of_nat (List.length (failureTimes (breaker w))) + Z.of_nat (S m)
    = maxFailures (breaker w) ->
  exists rs w',
    calls (S m) fn w = Some (rs, w') /\
    List.length rs = S m /\
    Forall (fun r => r <> None) rs /\
    state (breaker w') = Open /\
    failureTimes (breaker w') = [].
Proof.
  intros Hfn. revert w. induction m as [|m IH]; intros w Hs Hw Hlen;
    destruct (Hfn w) as [e [w1 [Hrun1 Hb1]]];
    destruct (Execute_closed_failure_run fn w w1 e Hs Hrun1)
      as [w2 [Hrun [_ [_ [_ Hcase]]]]];
    assert (Hrec : recorded (clock w1) (breaker w1) =
                   failureTimes (breaker w) ++ [clock w1])
      by (unfold recorded; rewrite Hb1;
          destruct (Z.ltb_spec 0 (window (breaker w))); [lia|reflexivity]);
    rewrite Hrec, length_app, Hb1 in Hcase; cbn [List.length] in Hcase;
    destruct (Z.leb_spec (maxFailures (breaker w))
                (Z.of_nat (Datatypes.length (failureTimes (breaker w)) + 1)));
    try lia.
  - destruct Hcase as [Hf [_ [Ho _]]].
    exists [Some e], w2.
    rewrite (calls_step 0 fn w w2 (Some e) Hrun). cbn [calls]. unfold ret.
    repeat split; try assumption.
    constructor; [discriminate|constructor].
  - assert (Hb2 : breaker w2 =
                  set_failureTimes (failureTimes (breaker w) ++ [clock w1]) (breaker w)).
    { rewrite Hcase. unfold with_breaker. cbn [breaker]. rewrite Hb1. reflexivity. }
    destruct (IH w2) as [rs [w' [Hcalls [Hl [Hall [Ho Hf]]]]]].
    + rewrite Hb2. exact Hs.
    + rewrite Hb2. exact Hw.
    + rewrite Hb2. cbn [set_failureTimes failureTimes maxFailures].
      rewrite length_app. cbn [List.length]. lia.
    + exists (Some e :: rs), w'.
      rewrite (calls_step (S m) fn w w2 (Some e) Hrun), Hcalls.
      repeat split; try assumption.
      * cbn [List.length]. lia.
      * constructor; [discriminate|exact Hall].
Qed.

(** X8. Failures in a row. On a closed breaker without a window, with an
    operation that always fails and leaves the breaker alone, [n] calls
    that bring the failure record to exactly [maxFailures] all return the
    operation's failure and leave the breaker open with an empty record;
    after fewer calls it is still closed with one timestamp more per call;
    and the call after the last is turned away with [ErrOpen] whatever its
    operation is. *)
Theorem failures_open_the_breaker (fn : M error) (n : nat) (w : World) :
  always_fails fn ->
  state (breaker w) = Closed ->
  window (breaker w) <= 0 ->
  (1 <= n)%nat ->
  Z.of_nat (List.length (failureTimes (breaker w))) + Z.of_nat n
    = maxFailures (breaker w) ->
  (exists rs w',
     calls n fn w = Some (rs, w') /\
     List.length rs = n /\
     Forall (fun r => r <> None) rs /\
     state (breaker w') = Open /\
     failureTimes (breaker w') = [] /\
     forall g, circuitbreaker.Execute g w' = Some (Some ErrOpen, w')) /\
  (forall k, (k < n)%nat ->
     exists rs wk,
       calls k fn w = Some (rs, wk) /\
       state (breaker wk) = Closed /\
       List.length (failureTimes (breaker wk)) =
         (List.length (failureTimes (breaker w)) + k)%nat).
Proof.
  intros Hfn Hs Hw Hn Hlen. split.
  - destruct n as [|m]; [lia|].
    destruct (calls_reach_threshold fn m w Hfn Hs Hw Hlen)
      as [rs [w' [Hc [Hl [Hall [Ho Hf]]]]]].
    exists rs, w'. repeat split; try assumption.
    intros g. apply Execute_open_run. exact Ho.
  - intros k Hk.
    destruct (calls_below_threshold fn k w Hfn Hs Hw)
      as [rs [wk [Hc [_ [_ [Hsk [_ [_ Hl]]]]]]]]; [lia|].
    exists rs, wk. repeat split; assumption.
Qed.

Lemma failures_open_the_breaker_witness :
  let w := mkWorld (mkCircuitBreaker 3 0 1000 0 0 [] 0 0 Closed None)
                   idle_bulkhead 10 [] [] 0 in
  exists rs w',
    calls 3 failing w = Some (rs, w') /\
    state (breaker w') = Open /\
    circuitbreaker.Execute succeeding w' = Some (Some ErrOpen, w').
Proof.
  intros w.
  assert (Hfn : always_fails failing).
  { intros v. exists boom, v. split; reflexivity. }
  destruct (failures_open_the_breaker failing 3 w Hfn eq_refl) as [Hopen _].
  - simpl. lia.
  - lia.
  - reflexivity.
  - destruct Hopen as [rs [w' [Hc [_ [_ [Ho [_ Hnext]]]]]]].
    exists rs, w'. repeat split; [exact Hc|exact Ho|apply Hnext].
Defined.

(** The second critical section after a successful trial call. *)
Lemma Execute_trial_success_run (fn : M error) (w w1 : World) :
  within_trial w ->
  fn w = Some (None, w1) ->
  exists w2,
    circuitbreaker.Execute fn w = Some (None, w2) /\
    if (trialRequests (breaker w1) =? 0) ||
       (trialRequests (breaker w1) <=? wrap64 (trialCount (breaker w1) + 1))
    then state (breaker w2) = Closed /\
         failureTimes (breaker w2) = [] /\
         trialCount (breaker w2) = 0
    else breaker w2 = set_trialCount (wrap64 (trialCount (breaker w1) + 1)) (breaker w1).
Proof.
  intros Hin Hfn. destruct (within_trial_admits w Hin) as [Hs Hadm].
  run. rewrite Hs. run. rewrite Hadm. run. rewrite Hfn. run.
  destruct ((trialRequests (breaker w1) =? 0) ||
            (trialRequests (breaker w1) <=? wrap64 (trialCount (breaker w1) + 1)));
    run.
  - destruct (State_eqb (state (breaker w1)) Closed) eqn:Es; run.
    + apply State_eqb_eq in Es. eexists. split; [reflexivity|]. run.
      repeat split. exact Es.
    + destruct (onStateChange (breaker w1)); run;
        (eexists; split; [reflexivity|]); run; repeat split.
  - eexists. split; reflexivity.
Qed.

(** Successful trials short of [trialRequests] keep the breaker half-open. *)
Lemma calls_below_trials (fn : M error) (k : nat) (w : World) :
  always_succeeds fn ->
  state (breaker w) = HalfOpen ->
  trialDuration (breaker w) <= 0 ->
  0 <= trialCount (breaker w) ->
  trialCount (breaker w) + Z.of_nat k < trialRequests (breaker w) ->
  trialRequests (breaker w) < 2 ^ 63 ->
  exists rs wk,
    calls k fn w = Some (rs, wk) /\
    List.length rs = k /\
    Forall (fun r => r = None) rs /\
    state (breaker wk) = HalfOpen /\
    trialDuration (breaker wk) = trialDuration (breaker w) /\
    trialRequests (breaker wk) = trialRequests (breaker w) /\
    trialCount (breaker wk) = trialCount (breaker w) + Z.of_nat k.
Proof.
  intros Hfn. revert w. induction k as [|k IH]; intros w Hs Hd Hc Hlt Hmax.
  - exists [], w.
    split; [reflexivity|]. split; [reflexivity|]. split; [constructor|].
    split; [exact Hs|]. do 2 (split; [reflexivity|]). lia.
  - destruct (Hfn w) as [w1 [Hrun1 Hb1]].
    assert (Hin : within_trial w) by (split; [exact Hs|left; exact Hd]).
    destruct (Execute_trial_success_run fn w w1 Hin Hrun1) as [w2 [Hrun Hcase]].
    rewrite Hb1 in Hcase.
    rewrite (wrap64_small (trialCount (breaker w) + 1)) in Hcase by lia.
    destruct (Z.eqb_spec (trialRequests (breaker w)) 0); [lia|].
    destruct (Z.leb_spec (trialRequests (breaker w)) (trialCount (breaker w) + 1));
      [lia|].
    cbn [orb] in Hcase.
    destruct (IH w2) as [rs [wk [Hcalls [Hl [Hall [Hsk [Hdk [Hrk Hck]]]]]]]];
      try (rewrite Hcase; cbn [set_trialCount state trialDuration trialCount
                                trialRequests]; first [assumption|lia]).
    exists (None :: rs), wk.
    rewrite (calls_step k fn w w2 None Hrun), Hcalls.
    rewrite Hcase in Hdk, Hrk, Hck.
    cbn [set_trialCount trialDuration trialCount trialRequests] in Hdk, Hrk, Hck.
    split; [reflexivity|]. split; [cbn [List.length]; lia|].
    split; [constructor; [reflexivity|exact Hall]|].
    split; [exact Hsk|]. split; [exact Hdk|]. split; [exact Hrk|]. lia.
Qed.

(** X9. Successful trials in a row. On a half-open breaker without a trial
    time limit, with an operation that always succeeds and leaves the
    breaker alone, the [n] calls that bring the trial count to exactly
    [trialRequests] all return success and leave the breaker closed, with
    an empty failure record and a trial count of 0; after fewer calls it
    is still half-open and has counted one trial per call. *)
Theorem successes_close_the_breaker (fn : M error) (n : nat) (w : World) :
  always_succeeds fn ->
  state (breaker w) = HalfOpen ->
  trialDuration (breaker w) <= 0 ->
  0 <= trialCount (breaker w) ->
  (1 <= n)%nat ->
  trialCount (breaker w) + Z.of_nat n = trialRequests (breaker w) ->
  trialRequests (breaker w) < 2 ^ 63 ->
  (exists rs w',
     calls n fn w = Some (rs, w') /\
     List.length rs = n /\
     Forall (fun r => r = None) rs /\
     state (breaker w') = Closed /\
     failureTimes (breaker w') = [] /\
     trialCount (breaker w') = 0) /\
  (forall k, (k < n)%nat ->
     exists rs wk,
       calls k fn w = Some (rs, wk) /\
       state (breaker wk) = HalfOpen /\
       trialCount (breaker wk) = trialCount (breaker w) + Z.of_nat k).
Proof.
  intros Hfn Hs Hd Hc Hn Heq Hmax.
  assert (Hbelow : forall k, (k < n)%nat ->
            exists rs wk,
              calls k fn w = Some (rs, wk) /\
              List.length rs = k /\
              Forall (fun r => r = None) rs /\
              state (breaker wk) = HalfOpen /\
              trialDuration (breaker wk) = trialDuration (breaker w) /\
              trialRequests (breaker wk) = trialRequests (breaker w) /\
              trialCount (breaker wk) = trialCount (breaker w) + Z.of_nat k).
  { intros k Hk. apply calls_below_trials; try assumption. lia. }
  split.
  - destruct n as [|m]; [lia|].
    destruct (Hbelow m) as [rs [wm [Hcalls [Hl [Hall [Hsm [Hdm [Hrm Hcm]]]]]]]];
      [lia|].
    destruct (Hfn wm) as [w1 [Hrun1 Hb1]].
    assert (Hin : within_trial wm) by (split; [exact Hsm|left; lia]).
    destruct (Execute_trial_success_run fn wm w1 Hin Hrun1) as [w2 [Hrun Hcase]].
    rewrite Hb1 in Hcase.
    rewrite (wrap64_small (trialCount (breaker wm) + 1)) in Hcase by lia.
    destruct (Z.leb_spec (trialRequests (breaker wm)) (trialCount (breaker wm) + 1));
      [|lia].
    rewrite orb_true_r in Hcase. destruct Hcase as [Hclosed [Hrec Hcount]].
    assert (Hsnoc : forall j v rs0 v', calls j fn v = Some (rs0, v') ->
              calls (S j) fn v =
              match circuitbreaker.Execute fn v' with
              | Some (r, v'') => Some (rs0 ++ [r], v'')
              | None => None
              end).
    { clear. induction j as [|j IHj]; intros v rs0 v' Hj.
      - cbn [calls] in Hj. unfold ret in Hj. injection Hj as <- <-.
        cbn [calls]. unfold bind, ret.
        destruct (circuitbreaker.Execute fn v) as [[r v'']|]; reflexivity.
      - cbn [calls] in Hj. unfold bind at 1 in Hj.
        destruct (circuitbreaker.Execute fn v) as [[r0 v0]|] eqn:E0; [|discriminate].
        unfold bind, ret in Hj.
        destruct (calls j fn v0) as [[rs1 v1]|] eqn:E1; [|discriminate].
        injection Hj as <- <-.
        rewrite (calls_step (S j) fn v v0 r0 E0), (IHj v0 rs1 v1 E1).
        destruct (circuitbreaker.Execute fn v1) as [[r v'']|]; reflexivity. }
    exists (rs ++ [None]), w2.
    rewrite (Hsnoc m w rs wm Hcalls), Hrun.
    split; [reflexivity|]. split; [rewrite length_app; cbn [List.length]; lia|].
    split; [apply Forall_app; split; [exact Hall|constructor; [reflexivity|constructor]]|].
    repeat split; assumption.
  - intros k Hk.
    destruct (Hbelow k Hk) as [rs [wk [Hcalls [_ [_ [Hsk [_ [_ Hck]]]]]]]].
    exists rs, wk. repeat split; assumption.
Qed.

Lemma successes_close_the_breaker_witness :
  let w := mkWorld (mkCircuitBreaker 3 0 1000 2 0 [] 0 100 HalfOpen None)
                   idle_bulkhead 120 [] [] 0 in
  exists rs w',
    calls 2 succeeding w = Some (rs, w') /\
    state (breaker w') = Closed /\
    trialCount (breaker w') = 0.
Proof.
  intros w.
  assert (Hfn : always_succeeds succeeding).
  { intros v. exists v. split; reflexivity. }
  destruct (successes_close_the_breaker succeeding 2 w Hfn eq_refl) as [Hclose _].
  - simpl. lia.
  - simpl. lia.
  - lia.
  - reflexivity.
  - simpl. lia.
  - destruct Hclose as [rs [w' [Hc [_ [_ [Hs [_ Hcount]]]]]]].
    exists rs, w'. repeat split; assumption.
Defined.

(** X10. The open timer. When an open timer fires the breaker becomes
    half-open whatever its state was (closed too, when the timer is a
    stale one), the trial count is 0 and the trial starts at the current
    instant; the failure record is kept; and the call that follows at
    once is admitted: it returns what its operation returns. *)
Theorem openTimerFired_admits_next_call (fn : M error) (w : World) :
  exists w',
    circuitbreaker.openTimerFired w = Some (tt, w') /\
    state (breaker w') = HalfOpen /\
    trialCount (breaker w') = 0 /\
    trialStart (breaker w') = clock w /\
    failureTimes (breaker w') = failureTimes (breaker w) /\
    admitted w' /\
    match fn w' with
    | Some (r, w1) => exists w2, circuitbreaker.Execute fn w' = Some (r, w2)
    | None => circuitbreaker.Execute fn w' = None
    end.
Proof.
  assert (Hfire : exists w',
             circuitbreaker.openTimerFired w = Some (tt, w') /\
             state (breaker w') = HalfOpen /\
             trialCount (breaker w') = 0 /\
             trialStart (breaker w') = clock w /\
             failureTimes (breaker w') = failureTimes (breaker w) /\
             clock w' = clock w).
  { run. destruct (State_eqb (state (breaker w)) HalfOpen) eqn:Es; run.
    - apply State_eqb_eq in Es. eexists. split; [reflexivity|]. run.
      repeat split. exact Es.
    - destruct (onStateChange (breaker w)); run;
        (eexists; split; [reflexivity|]); run; repeat split. }
  destruct Hfire as [w' [Hrun [Hs [Hc [Hst [Hf Hclock]]]]]].
  assert (Hadm : admitted w').
  { right. split; [exact Hs|].
    destruct (Z.le_gt_cases (trialDuration (breaker w')) 0) as [Hd|Hd];
      [left; exact Hd|right].
    rewrite Hst, Hclock, Sub_exact; unfold time.minDuration, time.maxDuration; lia. }
  exists w'. do 5 (split; [assumption|]). split; [exact Hadm|].
  destruct (fn w') as [[r w1]|] eqn:Hfn.
  - destruct (Execute_admitted_run fn w' w1 r Hadm Hfn) as [w2 [Hex _]].
    exists w2. exact Hex.
  - destruct (admitted_passes w' Hadm) as [Hpass Hnopen].
    cbv [circuitbreaker.Execute bind gets Now circuitbreaker.Since ret].
    rewrite Hpass, Hnopen, Hfn. reflexivity.
Qed.


(** ** Failures that no longer count *)

(** X17. A success wipes the slate. On a closed breaker without a window,
    after one successful call the failures recorded before no longer
    count, however many they were: the record is empty, and it takes
    [maxFailures] failing calls in a row to open the breaker, which is
    still closed after any smaller number of them. *)
Theorem success_resets_the_count (g fn : M error) (n : nat) (w : World) :
  always_succeeds g ->
  always_fails fn ->
  state (breaker w) = Closed ->
  window (breaker w) <= 0 ->
  (1 <= n)%nat ->
  Z.of_nat n = maxFailures (breaker w) ->
  exists w0,
    circuitbreaker.Execute g w = Some (None, w0) /\
    state (breaker w0) = Closed /\
    failureTimes (breaker w0) = [] /\
    (forall k, (k < n)%nat ->
       exists rs wk, calls k fn w0 = Some (rs, wk) /\ state (breaker wk) = Closed) /\
    (exists rs w',
       calls n fn w0 = Some (rs, w') /\
       Forall (fun r => r <> None) rs /\
       state (breaker w') = Open).
Proof.
  intros Hg Hfn Hs Hw Hn Hmax.
  destruct (Hg w) as [w1 [Hrun1 Hb1]].
  set (w0 := with_breaker (set_trialCount 0) (with_breaker (set_failureTimes []) w1)).
  assert (Hrun : circuitbreaker.Execute g w = Some (None, w0)).
  { unfold w0. run. rewrite Hs. run. rewrite Hrun1. reflexivity. }
  assert (Hs0 : state (breaker w0) = Closed) by (unfold w0; run; rewrite Hb1; exact Hs).
  assert (Hw0 : window (breaker w0) <= 0) by (unfold w0; run; rewrite Hb1; exact Hw).
  assert (Hf0 : failureTimes (breaker w0) = []) by reflexivity.
  assert (Hm0 : maxFailures (breaker w0) = maxFailures (breaker w))
    by (unfold w0; run; rewrite Hb1; reflexivity).
  exists w0. split; [exact Hrun|]. split; [exact Hs0|]. split; [exact Hf0|]. split.
  - intros k Hk.
    destruct (calls_below_threshold fn k w0 Hfn Hs0 Hw0)
      as [rs [wk [Hc [_ [_ [Hsk _]]]]]].
    { rewrite Hf0, Hm0. cbn [List.length]. lia. }
    exists rs, wk. split; assumption.
  - destruct n as [|m]; [lia|].
    destruct (calls_reach_threshold fn m w0 Hfn Hs0 Hw0)
      as [rs [w' [Hc [_ [Hall [Ho _]]]]]].
    { rewrite Hf0, Hm0. cbn [List.length]. lia. }
    exists rs, w'. repeat split; assumption.
Qed.

Lemma success_resets_the_count_witness :
  let w := mkWorld (mkCircuitBreaker 2 0 1000 0 0 [3] 0 0 Closed None)
                   idle_bulkhead 10 [] [] 0 in
  exists w0,
    circuitbreaker.Execute succeeding w = Some (None, w0) /\
    (exists rs wk, calls 1 failing w0 = Some (rs, wk) /\ state (breaker wk) = Closed) /\
    (exists rs w', calls 2 failing w0 = Some (rs, w') /\ state (breaker w') = Open).
Proof.
  intros w.
  assert (Hg : always_succeeds succeeding).
  { intros v. exists v. split; reflexivity. }
  assert (Hfn : always_fails failing).
  { intros v. exists boom, v. split; reflexivity. }
  destruct (success_resets_the_count succeeding failing 2 w Hg Hfn eq_refl)
    as [w0 [Hrun [_ [_ [Hbelow Hopen]]]]].
  - simpl. lia.
  - lia.
  - reflexivity.
  - exists w0. split; [exact Hrun|]. split.
    + apply Hbelow. lia.
    + destruct Hopen as [rs [w' [Hc [_ Ho]]]]. exists rs, w'. split; assumption.
Defined.

Lemma drop_expired_all (cutoff now : time.Time) (l : list time.Time) :
  Forall (fun t => t <= cutoff) l ->
  cutoff < now ->
  drop_expired cutoff (l ++ [now]) = [now].
Proof.
  intros Hall Hnow. induction Hall as [|t l Ht Hall IH]; simpl.
  - apply Z.ltb_lt in Hnow. rewrite Hnow. reflexivity.
  - destruct (Z.ltb_spec cutoff t); [lia|exact IH].
Qed.

(** X18. Failures older than the window do not count. On a closed breaker
    with a positive window and a threshold of at least 2, when every
    recorded failure is [window] old or older, a new failure leaves a
    record holding that failure alone and does not open the breaker,
    however long the record was. *)
Theorem expired_failures_do_not_trip (fn : M error) (w w1 : World) (e : Err) :
  state (breaker w) = Closed ->
  fn w = Some (Some e, w1) ->
  0 < window (breaker w1) ->
  2 <= maxFailures (breaker w1) ->
  Forall (fun t => t <= clock w1 - window (breaker w1)) (failureTimes (breaker w1)) ->
  exists w2,
    circuitbreaker.Execute fn w = Some (Some e, w2) /\
    failureTimes (breaker w2) = [clock w1] /\
    state (breaker w2) = state (breaker w1) /\
    timers w2 = timers w1 /\
    notified w2 = notified w1.
Proof.
  intros Hs Hfn Hw Hm Hold.
  destruct (Execute_closed_failure_run fn w w1 e Hs Hfn)
    as [w2 [Hrun [_ [_ [_ Hcase]]]]].
  assert (Hrec : recorded (clock w1) (breaker w1) = [clock w1]).
  { unfold recorded. apply Z.ltb_lt in Hw. rewrite Hw. apply Z.ltb_lt in Hw.
    apply drop_expired_all; [exact Hold|lia]. }
  rewrite Hrec in Hcase. cbn [List.length] in Hcase.
  destruct (Z.leb_spec (maxFailures (breaker w1)) (Z.of_nat 1)); [lia|].
  exists w2. split; [exact Hrun|]. rewrite Hcase. run. repeat split.
Qed.

Lemma expired_failures_do_not_trip_witness :
  let w := mkWorld (mkCircuitBreaker 2 10 1000 0 0 [1; 2; 3] 0 0 Closed None)
                   idle_bulkhead 20 [] [] 0 in
  exists w2,
    circuitbreaker.Execute failing w = Some (Some boom, w2) /\
    failureTimes (breaker w2) = [20] /\
    state (breaker w2) = Closed.
Proof.
  intros w.
  destruct (expired_failures_do_not_trip failing w w boom eq_refl eq_refl)
    as [w2 [Hrun [Hf [Hs _]]]].
  - simpl. lia.
  - simpl. lia.
  - simpl. repeat constructor; lia.
  - exists w2. repeat split; assumption.
Defined.

(** * Further properties of the bulkhead *)

Lemma claimed_inFlight (w : World) :
  inFlight (claimed w) = inFlight w + 1 /\
  cap (sem (bulkhead (claimed w))) = cap (sem (bulkhead w)).
Proof.
  unfold inFlight, claimed, send. run. rewrite length_app. simpl. split; [lia|reflexivity].
Qed.

(** With room left, [Execute] is: claim, run, receive. *)
Lemma bulkhead_Execute_room (g : M error) (w : World) :
  inFlight w < cap (sem (bulkhead w)) ->
  bulkhead.Execute g w =
  match g (claimed w) with
  | Some (r, w1) =>
      match bulkhead.recv w1 with
      | Some (_, w2) => Some (r, w2)
      | None => None
      end
  | None => None
  end.
Proof.
  unfold inFlight. intros Hroom. apply Z.ltb_lt in Hroom.
  unfold bulkhead.Execute, bulkhead.trySend, bind, gets, modify, ret, claimed.
  rewrite Hroom.
  destruct (g _) as [[r w1]|]; [|reflexivity].
  destruct (bulkhead.recv w1) as [[[] w2]|]; reflexivity.
Qed.

(** Giving back the slot just claimed restores the bulkhead. *)
Lemma recv_after_claim (w w1 : World) :
  bulkhead w1 = bulkhead (claimed w) ->
  exists w2,
    bulkhead.recv w1 = Some (tt, w2) /\
    bulkhead w2 = bulkhead w /\
    breaker w2 = breaker w1 /\
    clock w2 = clock w1 /\
    timers w2 = timers w1 /\
    notified w2 = notified w1 /\
    statusCode w2 = statusCode w1.
Proof.
  unfold claimed, send, bulkhead.recv, with_bulkhead. cbn [bulkhead].
  intros Hb. rewrite Hb. cbn [sem buf cap].
  rewrite units_snoc. eexists. split; [reflexivity|]. cbn.
  repeat split. destruct (bulkhead w) as [[c l]]. reflexivity.
Qed.

Lemma recv_claimed (w : World) : bulkhead.recv (claimed w) = Some (tt, w).
Proof.
  destruct w as [b [[c l]] ck ts ns sc].
  unfold claimed, send, bulkhead.recv, with_bulkhead. cbn.
  rewrite units_snoc. reflexivity.
Qed.

Lemma claimed_n_inFlight (n : nat) (w : World) :
  inFlight (claimed_n n w) = inFlight w + Z.of_nat n /\
  cap (sem (bulkhead (claimed_n n w))) = cap (sem (bulkhead w)).
Proof.
  revert w. induction n as [|n IH]; intros w; cbn [claimed_n].
  - split; [lia|reflexivity].
  - destruct (IH (claimed w)) as [Hi Hc].
    destruct (claimed_inFlight w) as [Hi' Hc'].
    rewrite Hi, Hc, Hi', Hc'. split; [lia|reflexivity].
Qed.

Lemma nested_admits (n : nat) (fn : M error) (w w1 : World) (r : error) :
  inFlight w + Z.of_nat n <= cap (sem (bulkhead w)) ->
  fn (claimed_n n w) = Some (r, w1) ->
  bulkhead w1 = bulkhead (claimed_n n w) ->
  exists w2,
    nested n fn w = Some (r, w2) /\
    bulkhead w2 = bulkhead w /\
    breaker w2 = breaker w1 /\
    clock w2 = clock w1 /\
    timers w2 = timers w1 /\
    notified w2 = notified w1 /\
    statusCode w2 = statusCode w1.
Proof.
  revert w. induction n as [|n IH]; intros w Hroom Hfn Hb; cbn [nested claimed_n] in *.
  - exists w1. repeat split; assumption.
  - destruct (claimed_inFlight w) as [Hi Hc].
    destruct (IH (claimed w)) as [w2' [Hrun [Hb2 [Hbr [Hck [Ht [Hn Hsc]]]]]]];
      try assumption; [rewrite Hi, Hc; lia|].
    destruct (recv_after_claim w w2' Hb2)
      as [w2 [Hrecv [Hb3 [Hbr3 [Hck3 [Ht3 [Hn3 Hsc3]]]]]]].
    exists w2. rewrite bulkhead_Execute_room by lia. rewrite Hrun, Hrecv.
    repeat split; congruence.
Qed.

Lemma nested_rejects (n : nat) (fn : M error) (w : World) :
  inFlight w <= cap (sem (bulkhead w)) < inFlight w + Z.of_nat n ->
  nested n fn w = Some (Some ErrFull, w).
Proof.
  revert w. induction n as [|n IH]; intros w Hover; cbn [nested]; [lia|].
  destruct (Z.le_gt_cases (cap (sem (bulkhead w))) (inFlight w)) as [Hfull|Hroom].
  - apply bulkhead_full_run. exact Hfull.
  - rewrite bulkhead_Execute_room by lia.
    destruct (claimed_inFlight w) as [Hi Hc].
    rewrite (IH (claimed w)) by (rewrite Hi, Hc; lia).
    rewrite recv_claimed. reflexivity.
Qed.

(** X11. Calls in flight. With [n] calls through the bulkhead each made
    from inside the previous one: when the slots already taken plus [n]
    do not exceed the capacity, the innermost operation runs with all [n]
    slots taken, its result is returned through all of them, and the
    slots are given back so that the bulkhead is as it was; when they
    exceed the capacity, the whole returns [ErrFull], the operation is
    not run, whatever it is, and the world is left as it was. *)
Theorem nested_calls_up_to_capacity (n : nat) (fn : M error) (w : World) :
  inFlight w <= cap (sem (bulkhead w)) ->
  (inFlight w + Z.of_nat n <= cap (sem (bulkhead w)) ->
   inFlight (claimed_n n w) = inFlight w + Z.of_nat n /\
   forall r w1,
     fn (claimed_n n w) = Some (r, w1) ->
     bulkhead w1 = bulkhead (claimed_n n w) ->
     exists w2,
       nested n fn w = Some (r, w2) /\
       bulkhead w2 = bulkhead w /\
       breaker w2 = breaker w1 /\
       clock w2 = clock w1 /\
       statusCode w2 = statusCode w1) /\
  (cap (sem (bulkhead w)) < inFlight w + Z.of_nat n ->
   nested n fn w = Some (Some ErrFull, w) /\
   nested n (fun _ => None) w = Some (Some ErrFull, w)).
Proof.
  intros Hinv. split.
  - intros Hroom. split; [apply claimed_n_inFlight|].
    intros r w1 Hfn Hb.
    destruct (nested_admits n fn w w1 r Hroom Hfn Hb)
      as [w2 [Hrun [Hb2 [Hbr [Hck [_ [_ Hsc]]]]]]].
    exists w2. repeat split; assumption.
  - intros Hover. split; apply nested_rejects; lia.
Qed.

Lemma nested_calls_up_to_capacity_witness :
  let w := mkWorld (mkCircuitBreaker 3 0 1000 0 0 [] 0 0 Closed None)
                   (mkBulkhead (mkChan 2 [])) 5 [] [] 0 in
  (exists w2, nested 2 failing w = Some (Some boom, w2) /\ bulkhead w2 = bulkhead w) /\
  nested 3 failing w = Some (Some ErrFull, w).
Proof.
  intros w.
  assert (Hinv : inFlight w <= cap (sem (bulkhead w))) by (vm_compute; discriminate).
  destruct (nested_calls_up_to_capacity 2 failing w Hinv) as [Hfit _].
  destruct (nested_calls_up_to_capacity 3 failing w Hinv) as [_ Hover].
  split.
  - destruct Hfit as [_ Hrun]; [vm_compute; discriminate|].
    destruct (Hrun (Some boom) (claimed_n 2 w) eq_refl eq_refl)
      as [w2 [Hex [Hb _]]].
    exists w2. split; assumption.
  - apply Hover. vm_compute. reflexivity.
Defined.


(** * The client: configuration and [Call] *)

Lemma buildBreaker_built (cfg : httpclient.BreakerConfig) :
  httpclient.buildBreaker None = None /\
  exists cb,
    httpclient.buildBreaker (Some cfg) = Some cb /\
    maxFailures cb = (if 0 <? httpclient.MaxFailures cfg
                      then httpclient.MaxFailures cfg else 3) /\
    timeout cb = (if 0 <? httpclient.Timeout cfg
                  then httpclient.Timeout cfg else 1000000000) /\
    window cb = Z.max 0 (httpclient.Window cfg) /\
    trialRequests cb = Z.max 0 (httpclient.TrialRequests cfg) /\
    trialDuration cb = Z.max 0 (httpclient.TrialDuration cfg) /\
    onStateChange cb = httpclient.OnStateChange cfg /\
    1 <= maxFailures cb /\
    1 <= timeout cb /\
    state cb = Closed /\
    failureTimes cb = [] /\
    trialCount cb = 0 /\
    forall w, breaker w = cb -> below_threshold w /\ admitted w.
Proof.
  split; [reflexivity|].
  destruct cfg as [mf wd to tr td osc].
  unfold httpclient.buildBreaker.
  cbn [httpclient.MaxFailures httpclient.Window httpclient.Timeout
       httpclient.TrialRequests httpclient.TrialDuration httpclient.OnStateChange].
  eexists. split; [reflexivity|].
  unfold below_threshold, admitted.
  destruct (Z.ltb_spec 0 mf), (Z.ltb_spec 0 wd), (Z.ltb_spec 0 to),
           (Z.ltb_spec 0 tr), (Z.ltb_spec 0 td), osc;
    cbn; unfold circuitbreaker.Second;
    repeat (split; [first [reflexivity|lia]|]);
    intros w ->; cbn; split; first [lia|left; reflexivity].
Qed.

(** X12. The breaker a client is configured with. [buildBreaker] takes
    over a positive setting and keeps the builder's default for one that
    is zero or negative, so the breaker it builds always has a threshold
    of at least 1 (3 by default) and an open time of at least one
    nanosecond (one second by default), and no negative window, trial
    count or trial duration; it starts closed with an empty failure
    record, below its threshold, and admits its first call. Without a
    configuration there is no breaker. *)
Theorem buildBreaker_settings (cfg : httpclient.BreakerConfig) :
  httpclient.buildBreaker None = None /\
  exists cb,
    httpclient.buildBreaker (Some cfg) = Some cb /\
    maxFailures cb = (if 0 <? httpclient.MaxFailures cfg
                      then httpclient.MaxFailures cfg else 3) /\
    timeout cb = (if 0 <? httpclient.Timeout cfg
                  then httpclient.Timeout cfg else 1000000000) /\
    window cb = Z.max 0 (httpclient.Window cfg) /\
    trialRequests cb = Z.max 0 (httpclient.TrialRequests cfg) /\
    trialDuration cb = Z.max 0 (httpclient.TrialDuration cfg) /\
    onStateChange cb = httpclient.OnStateChange cfg /\
    1 <= maxFailures cb /\
    1 <= timeout cb /\
    state cb = Closed /\
    failureTimes cb = [] /\
    trialCount cb = 0 /\
    forall w, breaker w = cb -> below_threshold w /\ admitted w.
Proof.
  exact (buildBreaker_built cfg).
Qed.

Lemma buildBulkhead_built (cfg : httpclient.BulkheadConfig) :
  httpclient.buildBulkhead None = Some None /\
  exists bh,
    httpclient.buildBulkhead (Some cfg) = Some (Some bh) /\
    cap (sem bh) = (if 0 <? httpclient.Limit cfg then httpclient.Limit cfg else 1) /\
    1 <= cap (sem bh) /\
    buf (sem bh) = [] /\
    forall w, bulkhead w = bh -> ~ full w.
Proof.
  split; [reflexivity|].
  destruct cfg as [n]. unfold httpclient.buildBulkhead, bulkhead.Build.
  cbn [httpclient.Limit].
  destruct (Z.ltb_spec 0 n) as [Hpos|Hneg]; cbn [bulkhead.limit bulkhead.Limit
                                                  bulkhead.NewBuilder].
  - destruct (Z.ltb_spec n 0); [lia|].
    eexists. split; [reflexivity|]. cbn. repeat split; try lia.
    intros w Hb. unfold full, inFlight. rewrite Hb. cbn. lia.
  - cbn. eexists. split; [reflexivity|]. cbn. repeat split; try lia.
    intros w Hb. unfold full, inFlight. rewrite Hb. cbn. lia.
Qed.

(** X13. The bulkhead a client is configured with. [buildBulkhead] never
    panics and never builds a bulkhead without capacity: a positive limit
    is taken over, a zero or negative one gives the default capacity 1;
    the bulkhead starts with no slot taken, so its first call is not
    turned away. Without a configuration there is no bulkhead. *)
Theorem buildBulkhead_capacity (cfg : httpclient.BulkheadConfig) :
  httpclient.buildBulkhead None = Some None /\
  exists bh,
    httpclient.buildBulkhead (Some cfg) = Some (Some bh) /\
    cap (sem bh) = (if 0 <? httpclient.Limit cfg then httpclient.Limit cfg else 1) /\
    1 <= cap (sem bh) /\
    buf (sem bh) = [] /\
    forall w, bulkhead w = bh -> ~ full w.
Proof.
  exact (buildBulkhead_built cfg).
Qed.

Lemma New_built (cfg : option httpclient.Config) (fn : M error) :
  exists b,
    httpclient.New cfg = Some b /\
    let has_cb := match cfg with
                  | Some c => httpclient.non_nil (httpclient.Breaker c)
                  | None => false
                  end in
    let has_bh := match cfg with
                  | Some c => httpclient.non_nil (httpclient.Bulkhead_ c)
                  | None => false
                  end in
    httpclient.CB (httpclient.client b) = has_cb /\
    httpclient.BH (httpclient.client b) = has_bh /\
    httpclient.non_nil (httpclient.breaker_of b) = has_cb /\
    httpclient.non_nil (httpclient.bulkhead_of b) = has_bh /\
    httpclient.execute (httpclient.client b) fn =
      match has_cb, has_bh with
      | true, true => circuitbreaker.Execute (bulkhead.Execute fn)
      | true, false => circuitbreaker.Execute fn
      | false, true => bulkhead.Execute fn
      | false, false => fn
      end.
Proof.
  destruct cfg as [[h cbc bhc]|]; [|eexists; split; [reflexivity|]; repeat split].
  unfold httpclient.New. cbn [httpclient.Breaker httpclient.Bulkhead_].
  destruct bhc as [bhc|].
  - destruct (buildBulkhead_built bhc) as [_ [bh [Hbh _]]]. rewrite Hbh.
    eexists. split; [reflexivity|].
    destruct cbc as [cbc|]; cbn; repeat split.
  - cbn [httpclient.buildBulkhead].
    eexists. split; [reflexivity|].
    destruct cbc as [cbc|]; cbn; repeat split.
Qed.

(** X14. Which guards a new client has. [New] always returns a client.
    Its breaker pointer is set exactly when the configuration has a
    breaker part, its bulkhead pointer exactly when it has a bulkhead
    part, and [execute] on the client then runs the operation through the
    breaker around the bulkhead, through the one guard that is there, or
    unguarded; a nil configuration gives an unguarded client. *)
Theorem New_selects_guards (cfg : option httpclient.Config) (fn : M error) :
  exists b,
    httpclient.New cfg = Some b /\
    let has_cb := match cfg with
                  | Some c => httpclient.non_nil (httpclient.Breaker c)
                  | None => false
                  end in
    let has_bh := match cfg with
                  | Some c => httpclient.non_nil (httpclient.Bulkhead_ c)
                  | None => false
                  end in
    httpclient.CB (httpclient.client b) = has_cb /\
    httpclient.BH (httpclient.client b) = has_bh /\
    httpclient.non_nil (httpclient.breaker_of b) = has_cb /\
    httpclient.non_nil (httpclient.bulkhead_of b) = has_bh /\
    httpclient.execute (httpclient.client b) fn =
      match has_cb, has_bh with
      | true, true => circuitbreaker.Execute (bulkhead.Execute fn)
      | true, false => circuitbreaker.Execute fn
      | false, true => bulkhead.Execute fn
      | false, false => fn
      end.
Proof.
  exact (New_built cfg fn).
Qed.

(** The four named constructors of a client. *)
Lemma New_variants (h : option httpclient.HTTPClientConfig)
    (cbc : httpclient.BreakerConfig) (bhc : httpclient.BulkheadConfig) (fn : M error) :
  (exists b, httpclient.NewPlain h = Some b /\
             httpclient.execute (httpclient.client b) fn = fn) /\
  (exists b, httpclient.NewWithBreaker h (Some cbc) = Some b /\
             httpclient.execute (httpclient.client b) fn = circuitbreaker.Execute fn) /\
  (exists b, httpclient.NewWithBulkhead h (Some bhc) = Some b /\
             httpclient.execute (httpclient.client b) fn = bulkhead.Execute fn) /\
  (exists b, httpclient.NewWithBreakerAndBulkhead h (Some cbc) (Some bhc) = Some b /\
             httpclient.execute (httpclient.client b) fn =
               circuitbreaker.Execute (bulkhead.Execute fn)).
Proof.
  unfold httpclient.NewPlain, httpclient.NewWithBreaker, httpclient.NewWithBulkhead,
         httpclient.NewWithBreakerAndBulkhead.
  repeat split.
  - destruct (New_built (Some (httpclient.mkConfig h None None)) fn)
      as [b [Hn [_ [_ [_ [_ He]]]]]]. exists b. split; assumption.
  - destruct (New_built (Some (httpclient.mkConfig h (Some cbc) None)) fn)
      as [b [Hn [_ [_ [_ [_ He]]]]]]. exists b. split; assumption.
  - destruct (New_built (Some (httpclient.mkConfig h None (Some bhc))) fn)
      as [b [Hn [_ [_ [_ [_ He]]]]]]. exists b. split; assumption.
  - destruct (New_built (Some (httpclient.mkConfig h (Some cbc) (Some bhc))) fn)
      as [b [Hn [_ [_ [_ [_ He]]]]]]. exists b. split; assumption.
Qed.

(** An admitted call does not return when its operation does not. *)
Lemma Execute_admitted_hangs (g : M error) (w : World) :
  admitted w -> g w = None -> circuitbreaker.Execute g w = None.
Proof.
  intros Hadm Hg. destruct (admitted_passes w Hadm) as [Hpass Hnopen].
  cbv [circuitbreaker.Execute bind gets Now circuitbreaker.Since ret].
  rewrite Hpass, Hnopen, Hg. reflexivity.
Qed.

(** X15. The first call of a new client reaches the operation. Whatever
    the configuration, in the world where the objects that [New] built
    are installed neither guard turns the call away: an operation that
    never returns makes [execute] never return, where a refusal would
    have returned [ErrOpen] or [ErrFull]. *)
Theorem New_first_call_reaches_operation (cfg : option httpclient.Config) (w : World) :
  exists b,
    httpclient.New cfg = Some b /\
    httpclient.execute (httpclient.client b) (fun _ => None) (httpclient.install b w)
      = None.
Proof.
  destruct cfg as [[h cbc bhc]|]; [|eexists; split; reflexivity].
  unfold httpclient.New. cbn [httpclient.Breaker httpclient.Bulkhead_].
  assert (Hcb : forall c v, breaker v = c ->
            (exists cfgb, httpclient.buildBreaker (Some cfgb) = Some c) -> admitted v).
  { intros c v Hv [cfgb Hc].
    destruct (buildBreaker_built cfgb) as [_ [cb [Hcb' Hrest]]].
    rewrite Hc in Hcb'. injection Hcb' as <-.
    repeat (destruct Hrest as [_ Hrest]). apply (Hrest v Hv). }
  assert (Hbh : forall bh v, bulkhead v = bh ->
            (exists cfgb, httpclient.buildBulkhead (Some cfgb) = Some (Some bh)) ->
            inFlight v < cap (sem (bulkhead v))).
  { intros bh v Hv [cfgb Hc].
    destruct (buildBulkhead_built cfgb) as [_ [bh' [Hbh' Hrest]]].
    rewrite Hc in Hbh'. injection Hbh' as <-.
    repeat (destruct Hrest as [_ Hrest]). specialize (Hrest v Hv).
    unfold full in Hrest. lia. }
  destruct bhc as [bhc|].
  - destruct (buildBulkhead_built bhc) as [_ [bh [Hb _]]]. rewrite Hb.
    eexists. split; [reflexivity|].
    destruct cbc as [cbc|].
    + destruct (buildBreaker_built cbc) as [_ [cb [Hc _]]]. rewrite Hc.
      unfold httpclient.execute. cbn [httpclient.client httpclient.CB httpclient.BH
                                      httpclient.non_nil andb].
      apply Execute_admitted_hangs.
      * apply (Hcb cb); [reflexivity|exists cbc; exact Hc].
      * rewrite bulkhead_Execute_room; [reflexivity|].
        apply (Hbh bh); [reflexivity|exists bhc; exact Hb].
    + unfold httpclient.execute. cbn [httpclient.buildBreaker httpclient.client
                                      httpclient.CB httpclient.BH httpclient.non_nil andb].
      rewrite bulkhead_Execute_room; [reflexivity|].
      apply (Hbh bh); [reflexivity|exists bhc; exact Hb].
  - cbn [httpclient.buildBulkhead].
    eexists. split; [reflexivity|].
    destruct cbc as [cbc|].
    + destruct (buildBreaker_built cbc) as [_ [cb [Hc _]]]. rewrite Hc.
      unfold httpclient.execute. cbn [httpclient.client httpclient.CB httpclient.BH
                                      httpclient.non_nil andb].
      apply Execute_admitted_hangs; [|reflexivity].
      apply (Hcb cb); [reflexivity|exists cbc; exact Hc].
    + reflexivity.
Qed.

(** Turning a call away does not depend on the status left by an earlier
    response. *)
Lemma fast_fails_with_statusCode (code : Z) (w : World) :
  fast_fails w -> fast_fails (httpclient.with_statusCode code w).
Proof. intros H. exact H. Qed.

(** X16. What [Call] hands back. A request that cannot be prepared (its
    URL does not parse or its body cannot be read) gives that error and no
    response, and neither the guards nor the transport are touched. A call
    that the breaker turns away gives [ErrOpen] together with a response
    whose status is 0, whatever the transport is, the bulkhead being
    unchanged; a call that only a full bulkhead guards gives [ErrFull]
    with status 0. On an unguarded client, when the transport answers,
    the response with its status is returned in every case, together
    with a server error when the status is 500 or more. *)
Theorem Call_outcomes (parsed read : error) (Do : M error)
    (DoDeadline : time.Time -> M error) (deadline : option time.Time)
    (c : httpclient.Client) (w : World) :
  let call := httpclient.Call parsed read Do DoDeadline deadline c in
  (forall e, parsed = Some e -> call w = Some ((None, Some e), w)) /\
  (forall e, parsed = None -> read = Some e -> call w = Some ((None, Some e), w)) /\
  (parsed = None -> read = None -> httpclient.CB c = true -> fast_fails w ->
   exists w',
     call w = Some ((Some 0, Some ErrOpen), w') /\
     bulkhead w' = bulkhead w /\
     state (breaker w') = Open) /\
  (parsed = None -> read = None ->
   httpclient.CB c = false -> httpclient.BH c = true -> full w ->
   call w = Some ((Some 0, Some ErrFull), httpclient.with_statusCode 0 w)) /\
  (parsed = None -> read = None ->
   httpclient.CB c = false -> httpclient.BH c = false ->
   forall w1,
     match deadline with Some d => DoDeadline d | None => Do end
       (httpclient.with_statusCode 0 w) = Some (None, w1) ->
     call w = Some ((Some (statusCode w1),
                     if 500 <=? statusCode w1
                     then Some (ErrServer (statusCode w1)) else None), w1)).
Proof.
  intros call. unfold call, httpclient.Call.
  split; [intros e ->; reflexivity|].
  split; [intros e -> ->; reflexivity|].
  split; [|split].
  - intros -> -> Hcb Hff.
    assert (Hrej : forall g, exists w',
               circuitbreaker.Execute g (httpclient.with_statusCode 0 w)
                 = Some (Some ErrOpen, w') /\
               bulkhead w' = bulkhead w /\
               statusCode w' = 0 /\
               state (breaker w') = Open).
    { intros g.
      destruct (Execute_rejected_run g _ (fast_fails_with_statusCode 0 w Hff))
        as [w' [Hrun [Hb [_ [Hsc [_ [_ [_ [Hs _]]]]]]]]].
      exists w'. repeat split; assumption. }
    unfold httpclient.execute. rewrite Hcb. cbn [andb].
    destruct (httpclient.BH c).
    + destruct (Hrej (bulkhead.Execute (httpclient.callFn Do DoDeadline deadline)))
        as [w' [Hrun [Hb [Hsc Hs]]]].
      exists w'. unfold bind, modify, gets, ret. rewrite Hrun, Hsc.
      repeat split; assumption.
    + destruct (Hrej (httpclient.callFn Do DoDeadline deadline))
        as [w' [Hrun [Hb [Hsc Hs]]]].
      exists w'. unfold bind, modify, gets, ret. rewrite Hrun, Hsc.
      repeat split; assumption.
  - intros -> -> Hcb Hbh Hfull.
    unfold httpclient.execute. rewrite Hcb, Hbh. cbn [andb].
    unfold bind, modify, gets, ret.
    rewrite bulkhead_full_run by exact Hfull. reflexivity.
  - intros -> -> Hcb Hbh w1 Hdo.
    unfold httpclient.execute. rewrite Hcb, Hbh. cbn [andb].
    unfold bind at 1 2. unfold modify.
    unfold httpclient.callFn, httpclient.StatusInternalServerError, bind at 1.
    rewrite Hdo. unfold bind, gets, ret.
    destruct (500 <=? statusCode w1); reflexivity.
Qed.

Lemma Call_outcomes_witness :
  let open := mkWorld (mkCircuitBreaker 2 0 1000 0 0 [] 0 0 Open None)
                      idle_bulkhead 5 [] [] 404 in
  let answer (code : Z) : M error :=
    fun w => Some (None, httpclient.with_statusCode code w) in
  option_map fst
    (httpclient.Call None None (fun _ => None) (fun _ _ => None) None
       (httpclient.mkClient true true) open)
    = Some (Some 0, Some ErrOpen) /\
  option_map fst
    (httpclient.Call None None (answer 503) (fun _ => answer 503) None
       (httpclient.mkClient false false) open)
    = Some (Some 503, Some (ErrServer 503)) /\
  option_map fst
    (httpclient.Call (Some boom) None (answer 200) (fun _ => answer 200) None
       (httpclient.mkClient true true) open)
    = Some (None, Some boom).
Proof.
  intros open answer. split; [|split].
  - destruct (Call_outcomes None None (fun _ => None) (fun _ _ => None) None
                (httpclient.mkClient true true) open)
      as [_ [_ [Hrej _]]].
    destruct (Hrej eq_refl eq_refl eq_refl) as [w' [Hrun _]];
      [left; reflexivity|].
    rewrite Hrun. reflexivity.
  - destruct (Call_outcomes None None (answer 503) (fun _ => answer 503) None
                (httpclient.mkClient false false) open)
      as [_ [_ [_ [_ Hplain]]]].
    rewrite (Hplain eq_refl eq_refl eq_refl eq_refl _ eq_refl). reflexivity.
  - destruct (Call_outcomes (Some boom) None (answer 200) (fun _ => answer 200) None
                (httpclient.mkClient true true) open)
      as [Hparse _].
    rewrite (Hparse boom eq_refl). reflexivity.
Defined.
